(** * Multi-note summarizer: link resolution, aggregation and completion

    A shallow embedding of [src/main.ts] (the Obsidian plugin: its
    settings, commands and settings tab, the [ApiCaller] and the
    [SummarizerModal]) and of [src/scrape.js] (the [Scraper]), together
    with the properties the design document states about them and
    further properties read off the code.

    The host application (the vault, the metadata cache, the HTTP client
    of the completion provider, the plugin's data file; for the scraper
    the browser, the file system and the clock) is not part of the
    repository: it enters the model as records of functions and as the
    stored data file, and every call the code makes to the vault, the
    provider or the browser is recorded in a trace of events.
    [console.log] output is not modelled.

    The definitions come first, the properties after them. *)

From Stdlib Require Import Ascii String List Bool Arith Lia.
From stdpp Require Import base option strings list gmap.
Import ListNotations.

Local Open Scope string_scope.
Local Open Scope list_scope.

(** ** Data model *)

(** A file of the vault ([TFile]): the fields the code reads. *)
Record TFile := mkTFile {
  path : string;
  basename : string;
  extension : string
}.

(** What [getAbstractFileByPath] hands back: a file or a folder. *)
Inductive TAbstractFile :=
| AFile (f : TFile)
| AFolder (p : string).

(** A scalar of the YAML front matter.  Only strings can be [===] to a
    link text; of every other value (number, boolean, null, nested
    array, object) the code only ever observes its truthiness. *)
Inductive YamlValue :=
| YStr (s : string)
| YOther (truthy : bool).

(** The raw [aliases] entry of the front matter: one value or an array. *)
Inductive AliasesField :=
| ASingle (v : YamlValue)
| AList (l : list YamlValue).

Record FrontMatterCache := mkFrontMatter {
  aliases : option AliasesField
}.

Record LinkCache := mkLink {
  link : string
}.

Record CachedMetadata := mkCache {
  links : option (list LinkCache);
  frontmatter : option FrontMatterCache
}.

(** A thrown JavaScript [Error]; [error.message] is all the code reads. *)
Record JsError := mkError {
  message : string
}.

(** Completion of a call: a value, or a thrown error (for an [async]
    function: the promise is fulfilled or rejected). *)
Inductive Outcome (A : Type) :=
| Ok (a : A)
| Throw (e : JsError).
Arguments Ok {A} a.
Arguments Throw {A} e.

(** The vault as one run sees it, a snapshot: a path names at most one
    file or folder, the markdown files come in the host's listing
    order, and reading a file has one outcome, its text or an I/O error. *)
Record Vault := mkVault {
  getAbstractFileByPath : string -> option TAbstractFile;
  getMarkdownFiles : list TFile;
  cachedRead : TFile -> Outcome string
}.

Record MetadataCache := mkMetadataCache {
  getFileCache : TFile -> option CachedMetadata
}.

Record App := mkApp {
  vault : Vault;
  metadataCache : MetadataCache
}.

(** Chat messages and the completion exchange. *)
Record Message := mkMessage {
  role : string;
  content : string
}.

Record Choice := mkChoice {
  choice_content : option string   (* [message.content]: string or null *)
}.

Record ChatCompletion := mkCompletion {
  choices : list Choice
}.

Record Request := mkRequest {
  req_baseURL : string;
  req_apiKey : option string;
  req_model : string;
  req_messages : list Message
}.

(** The provider's side of [client.chat.completions.create]. *)
Definition Transport := Request -> Outcome ChatCompletion.

(** ** Effects: a trace of host calls and an outcome *)

Inductive Event :=
| EvGetAbstractFileByPath (p : string)
| EvGetMarkdownFiles
| EvGetFileCache (f : TFile)
| EvCachedRead (f : TFile)
| EvChatCreate (r : Request).

Definition M (A : Type) : Type := list Event * Outcome A.

Definition ret {A} (a : A) : M A := ([], Ok a).

Definition throw {A} (e : JsError) : M A := ([], Throw e).

Definition bind {A B} (m : M A) (k : A -> M B) : M B :=
  match m with
  | (t, Ok a) => let (t', r) := k a in (t ++ t', r)
  | (t, Throw e) => (t, Throw e)
  end.

(** [try { m } catch (error) { h error }] *)
Definition try_catch {A} (m : M A) (h : JsError -> M A) : M A :=
  match m with
  | (t, Throw e) => let (t', r) := h e in (t ++ t', r)
  | (t, Ok a) => (t, Ok a)
  end.

(** A host call: the event is recorded, the host's answer is the outcome. *)
Definition call {A} (ev : Event) (answer : Outcome A) : M A := ([ev], answer).

Definition trace {A} (m : M A) : list Event := fst m.
Definition outcome {A} (m : M A) : Outcome A := snd m.

Declare Scope js_scope.
Delimit Scope js_scope with js.
Notation "x <- m ;; k" := (bind m (fun x => k))
  (at level 100, m at next level, right associativity) : js_scope.
Local Open Scope js_scope.

(** ** The resolver: [SummarizerModal.resolveLinkedFile] *)

(** JavaScript truthiness of a front-matter value. *)
Definition truthy_value (v : YamlValue) : bool :=
  match v with
  | YStr s => negb (String.eqb s "")
  | YOther b => b
  end.

Definition truthy_aliases (a : AliasesField) : bool :=
  match a with
  | ASingle v => truthy_value v
  | AList _ => true
  end.

(** [alias === linkText] *)
Definition strict_eq (v : YamlValue) (linkText : string) : bool :=
  match v with
  | YStr s => String.eqb s linkText
  | YOther _ => false
  end.

(** [fileCache?.frontmatter?.aliases] *)
Definition raw_aliases (fileCache : option CachedMetadata) : option AliasesField :=
  match fileCache with
  | Some fc =>
      match frontmatter fc with
      | Some fm => aliases fm
      | None => None
      end
  | None => None
  end.

(** [Array.isArray(a) ? a : [a]] *)
Definition as_array (a : AliasesField) : list YamlValue :=
  match a with
  | ASingle v => [v]
  | AList l => l
  end.

(** The inner [for (const alias of aliases)] loop: does it return? *)
Fixpoint alias_loop (als : list YamlValue) (linkText : string) : bool :=
  match als with
  | [] => false
  | alias :: rest =>
      if strict_eq alias linkText then true else alias_loop rest linkText
  end.

(** Lines 283-290: the alias check of one file, given its cache. *)
Definition alias_check (fileCache : option CachedMetadata) (linkText : string) : bool :=
  match raw_aliases fileCache with
  | Some a =>
      if truthy_aliases a then alias_loop (as_array a) linkText else false
  | None => false
  end.

(** The [for (const file of files)] loop of lines 272-291. *)
Fixpoint files_loop (app : App) (linkText : string) (files : list TFile)
  : M (option TFile) :=
  match files with
  | [] => ret None
  | file :: rest =>
      let fileName := basename file in
      if String.eqb fileName linkText then ret (Some file)
      else
        fileCache <- call (EvGetFileCache file)
                          (Ok (getFileCache (metadataCache app) file)) ;;
        if alias_check fileCache linkText then ret (Some file)
        else files_loop app linkText rest
  end.

Definition resolveLinkedFile (app : App) (lnk : LinkCache) : M (option TFile) :=
  let linkText := link lnk in
  linkedFile <- call (EvGetAbstractFileByPath linkText)
                     (Ok (getAbstractFileByPath (vault app) linkText)) ;;
  match linkedFile with
  | Some (AFile f) => ret (Some f)
  | _ =>
      files <- call EvGetMarkdownFiles (Ok (getMarkdownFiles (vault app))) ;;
      files_loop app linkText files
  end.

(** ** The aggregator: [SummarizerModal.getLinkedContents] *)

(** The template literal of line 321. *)
Definition internal_link_entry (linkText content : string) : string :=
  "Internal Link (" ++ linkText ++ "):
" ++ content ++ "

".

(** The [for (const link of fileCache.links)] loop; [linkedContents] is
    the array the loop pushes onto. *)
Fixpoint links_loop (app : App) (lks : list LinkCache) (linkedContents : list string)
  : M (list string) :=
  match lks with
  | [] => ret linkedContents
  | lnk :: rest =>
      linkedContents' <-
        try_catch
          (linkedFile <- resolveLinkedFile app lnk ;;
           match linkedFile with
           | Some f =>
               content <- call (EvCachedRead f) (cachedRead (vault app) f) ;;
               ret (linkedContents ++ [internal_link_entry (link lnk) content])
           | None => ret linkedContents
           end)
          (fun error => ret linkedContents) ;;
      links_loop app rest linkedContents'
  end.

(** [fileCache?.links] *)
Definition cache_links (fileCache : option CachedMetadata) : option (list LinkCache) :=
  match fileCache with
  | Some fc => links fc
  | None => None
  end.

Definition getLinkedContents (app : App) (file : option TFile) : M string :=
  match file with
  | None => ret ""
  | Some file =>
      fileCache <- call (EvGetFileCache file)
                        (Ok (getFileCache (metadataCache app) file)) ;;
      fileContent <- call (EvCachedRead file) (cachedRead (vault app) file) ;;
      linkedContents <-
        match cache_links fileCache with
        | Some lks => links_loop app lks []
        | None => ret []
        end ;;
      ret (String.concat "" linkedContents)
  end.

(** ** The completion client: [ApiCaller] *)

Record SummarizerPluginSettings := mkSettings {
  mySetting : string;
  openaiApiKey : string;
  anthropicApiKey : string;
  deepseekApiKey : string;
  llmProvider : string;
  settings_llmModelId : string
}.

Definition DEFAULT_SETTINGS : SummarizerPluginSettings :=
  mkSettings "default" "" "" "" "openai" "gpt-4o".

Record ApiCaller := mkApiCaller {
  apiKey : option string;     (* left undefined for an unknown provider *)
  llmModelId : string;
  provider : string
}.

(** The constructor. *)
Definition newApiCaller (settings : SummarizerPluginSettings) : ApiCaller :=
  let provider := llmProvider settings in
  let apiKey :=
    if String.eqb provider "openai" then Some (openaiApiKey settings)
    else if String.eqb provider "anthropic" then Some (anthropicApiKey settings)
    else if String.eqb provider "deepseek" then Some (deepseekApiKey settings)
    else None in
  mkApiCaller apiKey (settings_llmModelId settings) provider.

(** The [openai.OpenAI] client object: the options it was built with. *)
Record Client := mkClient {
  client_apiKey : option string;
  client_baseURL : string
}.

Definition createOpenAIClient (this : ApiCaller) (model baseUrl : string) : Client :=
  mkClient (apiKey this) baseUrl.

Definition createClient (this : ApiCaller) : M Client :=
  let provider := provider this in
  let model := llmModelId this in
  baseUrl <-
    (if String.eqb provider "openai" then ret "https://api.openai.com/v1"
     else if String.eqb provider "anthropic" then ret "https://api.anthropic.com/v1"
     else if String.eqb provider "deepseek" then ret "https://api.deepseek.com/v1"
     else throw (mkError ("Unsupported provider: " ++ provider))) ;;
  ret (createOpenAIClient this model baseUrl).

Definition chatCompletion (net : Transport) (this : ApiCaller) (messages : list Message)
  : M ChatCompletion :=
  client <- createClient this ;;
  let r := mkRequest (client_baseURL client) (client_apiKey client)
                     (llmModelId this) messages in
  call (EvChatCreate r) (net r).

(** ** The modal: [SummarizerModal.onOpen] *)

Record MarkdownView := mkView {
  getViewData : string;
  file : option TFile
}.

Record SummarizerModal := mkModal {
  app : App;
  apiCaller : ApiCaller;
  markdownView : option MarkdownView;
  summarizeWithLinks : bool
}.

(** What [contentEl] holds: elements made by [createEl] (tag and text)
    or the text put there by [setText]. *)
Inductive Node :=
| El (tag text : string)
| Txt (s : string).

(** Lines 234-236. *)
Definition promptContent (summarizeWithLinks : bool) (content additionalContent : string)
  : string :=
  if summarizeWithLinks
  then "Please briefly summarize the following text and its linked content:

Main Content:
" ++ content ++ "

Linked Content:
" ++ additionalContent
  else "Please briefly summarize the following text:

" ++ content.

(** Lines 238-241. *)
Definition messages (summarizeWithLinks : bool) (content additionalContent : string)
  : list Message :=
  [ mkMessage "system" "You are a helpful assistant that briefly summarizes text.";
    mkMessage "user" (promptContent summarizeWithLinks content additionalContent) ].

(** [s || d] on a string or null. *)
Definition or_default (s : option string) (d : string) : string :=
  match s with
  | Some s => if String.eqb s "" then d else s
  | None => d
  end.

(** [response.choices[0].message.content || 'No summary available'] of
    line 246.  With no first choice, [choices[0]] is undefined and
    reading [.message] of it throws a TypeError (its message is the
    engine's). *)
Definition summary_text (response : ChatCompletion) : M string :=
  match choices response with
  | c :: _ => ret (or_default (choice_content c) "No summary available")
  | [] => throw (mkError "Cannot read properties of undefined (reading 'message')")
  end.

(** The block guarded by the [if] of line 231 (lines 233-251). *)
Definition summary_block (net : Transport) (this : SummarizerModal)
    (content additionalContent : string) : M (list Node) :=
  try_catch
    (let msgs := messages (summarizeWithLinks this) content additionalContent in
     response <- chatCompletion net (apiCaller this) msgs ;;
     text <- summary_text response ;;
     ret [ El "h3" (if summarizeWithLinks this
                    then "Summary (with linked content)" else "Summary");
           El "p" text ])
    (fun error =>
       ret [ El "p" ("Error getting summary: " ++ message error);
             El "pre" content ]).

(** [this.markdownView?.getViewData() || ""] *)
Definition view_content (view : option MarkdownView) : string :=
  match view with
  | Some v => getViewData v
  | None => ""
  end.

(** [this.markdownView?.file] *)
Definition view_file (view : option MarkdownView) : option TFile :=
  match view with
  | Some v => file v
  | None => None
  end.

(** [onOpen], from the [try] of line 221 on: the final children of
    [contentEl].  The guard of line 231 is the literal the source has. *)
Definition onOpen (net : Transport) (this : SummarizerModal) : M (list Node) :=
  try_catch
    (let content := view_content (markdownView this) in
     additionalContent <-
       (if summarizeWithLinks this then
          match view_file (markdownView this) with
          | Some f => getLinkedContents (app this) (Some f)
          | None => ret ""
          end
        else ret "") ;;
     if false then summary_block net this content additionalContent
     else ret [ Txt ("No API caller available. Raw content:

" ++ content) ])
    (fun error =>
       ret [ El "p" ("Error processing content: " ++ message error) ]).

(** The [create] calls among a trace's events. *)
Definition is_chat_create (ev : Event) : bool :=
  match ev with
  | EvChatCreate _ => true
  | _ => false
  end.

Definition requests_issued (t : list Event) : nat :=
  length (List.filter is_chat_create t).

(** ** Vocabulary of the properties *)

(** The test one turn of the file loop applies to a file. *)
Definition file_matches (app : App) (linkText : string) (f : TFile) : bool :=
  String.eqb (basename f) linkText
  || alias_check (getFileCache (metadataCache app) f) linkText.

Definition resolves (app : App) (lnk : LinkCache) : Prop :=
  exists f, outcome (resolveLinkedFile app lnk) = Ok (Some f).

(** The links the metadata cache reports for the root document. *)
Definition root_links (app : App) (root : TFile) : list LinkCache :=
  match cache_links (getFileCache (metadataCache app) root) with
  | Some lks => lks
  | None => []
  end.

(** The entry a link contributes: one if it resolves and the resolved
    file's text is read, none otherwise. *)
Definition link_entries (app : App) (lnk : LinkCache) : list string :=
  match outcome (resolveLinkedFile app lnk) with
  | Ok (Some f) =>
      match cachedRead (vault app) f with
      | Ok text => [internal_link_entry (link lnk) text]
      | Throw _ => []
      end
  | _ => []
  end.

(** The host calls one turn of the link loop makes. *)
Definition link_trace (app : App) (lnk : LinkCache) : list Event :=
  trace (resolveLinkedFile app lnk)
  ++ match outcome (resolveLinkedFile app lnk) with
     | Ok (Some f) => [EvCachedRead f]
     | _ => []
     end.

(** Host calls that reach the vault and the metadata cache only. *)
Definition vault_only (t : list Event) : Prop :=
  Forall (fun ev => is_chat_create ev = false) t.

(** The endpoint of a known provider. *)
Definition known_provider (p baseUrl : string) : Prop :=
  (p = "openai" /\ baseUrl = "https://api.openai.com/v1") \/
  (p = "anthropic" /\ baseUrl = "https://api.anthropic.com/v1") \/
  (p = "deepseek" /\ baseUrl = "https://api.deepseek.com/v1").

(** Metadata that holds an alias entry only, or links only. *)
Definition with_aliases (a : AliasesField) : CachedMetadata :=
  mkCache None (Some (mkFrontMatter (Some a))).

Definition with_links (tokens : list string) : CachedMetadata :=
  mkCache (Some (map mkLink tokens)) None.

(** The one-element list that stands for a single-string alias entry. *)
Definition listify_aliases (a : AliasesField) : AliasesField :=
  match a with
  | ASingle (YStr s) => AList [YStr s]
  | other => other
  end.

Definition listify_cache (fileCache : option CachedMetadata) : option CachedMetadata :=
  match fileCache with
  | Some (mkCache lks (Some (mkFrontMatter (Some a)))) =>
      Some (mkCache lks (Some (mkFrontMatter (Some (listify_aliases a)))))
  | other => other
  end.

(** The same host, every single-string alias entry rewritten as a list. *)
Definition listify_app (app : App) : App :=
  mkApp (vault app)
        (mkMetadataCache (fun f => listify_cache (getFileCache (metadataCache app) f))).

(** ** The design document's statements *)

(** The alias set of a document, normalised to a list: a single value
    and a list are both accepted, an absent entry is the empty list. *)
Definition normalized_aliases (fileCache : option CachedMetadata) : list YamlValue :=
  match raw_aliases fileCache with
  | Some a => as_array a
  | None => []
  end.

Definition has_alias (app : App) (token : string) (f : TFile) : bool :=
  existsb (fun v => strict_eq v token)
          (normalized_aliases (getFileCache (metadataCache app) f)).

(** Resolution in three separated tiers: the exact path, then every
    basename, then every alias set, each in enumeration order. *)
Definition resolve_tiered (app : App) (token : string) : option TFile :=
  match getAbstractFileByPath (vault app) token with
  | Some (AFile f) => Some f
  | _ =>
      match List.find (fun f => String.eqb (basename f) token)
                      (getMarkdownFiles (vault app)) with
      | Some f => Some f
      | None => List.find (has_alias app token) (getMarkdownFiles (vault app))
      end
  end.

Definition tiered_resolution_claim (app : App) (lnk : LinkCache) : Prop :=
  outcome (resolveLinkedFile app lnk) = Ok (resolve_tiered app (link lnk)).

(** A note whose alias entry is the string [t] is matched on [t] like a
    note whose entry is the list [[t]]. *)
Definition string_alias_claim (t : string) : Prop :=
  alias_check (Some (with_aliases (ASingle (YStr t)))) t
  = alias_check (Some (with_aliases (AList [YStr t]))) t.

(** The aggregate: one entry per link that resolves and is read, in the
    order of the links, nothing for the others. *)
Definition expected_aggregate (app : App) (root : TFile) : string :=
  String.concat "" (flat_map (link_entries app) (root_links app root)).

Definition aggregate_claim (app : App) (root : TFile) : Prop :=
  outcome (getLinkedContents app (Some root)) = Ok (expected_aggregate app root).

(** Fault isolation: with every link resolving, the call completes, its
    value has an entry exactly for the links whose read succeeded, and
    every resolved file was read. *)
Definition fault_isolation_claim (app : App) (root : TFile) : Prop :=
  Forall (resolves app) (root_links app root) ->
  outcome (getLinkedContents app (Some root)) = Ok (expected_aggregate app root) /\
  forall lnk f, In lnk (root_links app root) ->
                outcome (resolveLinkedFile app lnk) = Ok (Some f) ->
                In (EvCachedRead f) (trace (getLinkedContents app (Some root))).

(** ** Fixtures: concrete hosts built from finite maps *)

(** A vault given by its path index, its listing of markdown files and
    the text on disk; a file with no text on disk fails to read.  The
    metadata cache is a map from paths. *)
Definition fixture_app (fileMap : gmap string TAbstractFile) (listing : list TFile)
    (disk : gmap string string) (meta : gmap string CachedMetadata) : App :=
  mkApp
    (mkVault (fun p => fileMap !! p)
             listing
             (fun f => match disk !! path f with
                       | Some text => Ok text
                       | None => Throw (mkError ("ENOENT: " ++ path f))
                       end))
    (mkMetadataCache (fun f => meta !! path f)).

(** The markdown file [<dir><name>.md]. *)
Definition md (dir name : string) : TFile :=
  mkTFile (dir ++ name ++ ".md") name "md".

Definition home : TFile := md "" "Home".
Definition alpha : TFile := md "Projects/" "Alpha".
Definition beta : TFile := md "Archive/" "Beta".
Definition top_beta : TFile := md "" "Beta".
Definition shadow : TFile := md "Inbox/" "Beta.md".
Definition untitled : TFile := md "Notes/" "Untitled".

(** Two notes: [Projects/Alpha.md], which declares the alias [Beta], is
    listed before [Archive/Beta.md]. *)
Definition alias_before_basename_app : App :=
  fixture_app
    {[ path alpha := AFile alpha; path beta := AFile beta;
       "Projects" := AFolder "Projects"; "Archive" := AFolder "Archive" ]}
    [alpha; beta]
    {[ path alpha := "alpha text"; path beta := "beta text" ]}
    {[ path alpha := with_aliases (AList [YStr "Beta"]) ]}.

(** A vault where [Beta.md], the path of a note at the root, is also the
    basename of an earlier note ([Inbox/Beta.md.md]) and an alias of
    another one. *)
Definition colliding_app : App :=
  fixture_app
    {[ path alpha := AFile alpha; path top_beta := AFile top_beta;
       path shadow := AFile shadow ]}
    [shadow; alpha; top_beta]
    {[ path alpha := "alpha text"; path top_beta := "beta text";
       path shadow := "shadow text" ]}
    {[ path alpha := with_aliases (ASingle (YStr "Beta.md")) ]}.

(** One note, [Notes/Untitled.md], with the alias entry [a]. *)
Definition empty_alias_app (a : AliasesField) : App :=
  fixture_app {[ path untitled := AFile untitled ]} [untitled]
              {[ path untitled := "text" ]}
              {[ path untitled := with_aliases a ]}.

(** A vault of three notes; [Home.md] is the root, [tokens] are its
    links, [disk] holds the texts that can be read.  [B] is an alias of
    [Archive/Beta.md]. *)
Definition home_app (tokens : list string) (disk : gmap string string) : App :=
  fixture_app
    {[ path home := AFile home; path alpha := AFile alpha; path beta := AFile beta ]}
    [home; alpha; beta]
    disk
    {[ path home := with_links tokens;
       path beta := with_aliases (ASingle (YStr "B")) ]}.

Definition all_texts : gmap string string :=
  {[ path home := "home text"; path alpha := "alpha text"; path beta := "beta text" ]}.

(** The root links to [Alpha], to itself and to [Beta]; all three
    resolve; only [Home.md] cannot be read. *)
Definition self_link_app : App :=
  home_app ["Alpha"; "Home"; "Beta"]
           {[ path alpha := "alpha text"; path beta := "beta text" ]}.

(** The root links to [Alpha], to [B] and to the path
    [Projects/Alpha.md]; the text of [Archive/Beta.md] cannot be read. *)
Definition broken_beta_app : App :=
  home_app ["Alpha"; "B"; "Projects/Alpha.md"]
           {[ path home := "home text"; path alpha := "alpha text" ]}.

(** Settings that name a provider the client does not know. *)
Definition foo_settings : SummarizerPluginSettings :=
  mkSettings "default" "sk-1" "sk-2" "sk-3" "foo" "gpt-4o".

(** A provider that answers every request with one choice. *)
Definition echo_net : Transport :=
  fun r => Ok (mkCompletion [mkChoice (Some (req_model r))]).

(** A provider that is down. *)
Definition down_net : Transport := fun _ => Throw (mkError "503 Service Unavailable").

(** A provider that answers with no choice at all. *)
Definition mute_net : Transport := fun _ => Ok (mkCompletion []).

(** A note open in the editor, summarized without links on the default
    settings. *)
Definition plain_modal : SummarizerModal :=
  mkModal (home_app [] all_texts) (newApiCaller DEFAULT_SETTINGS)
          (Some (mkView "home text" (Some home))) false.

(** The same note summarized with its links. *)
Definition linked_modal : SummarizerModal :=
  mkModal (home_app ["Alpha"] all_texts) (newApiCaller DEFAULT_SETTINGS)
          (Some (mkView "home text" (Some home))) true.

(** ** The plugin: settings, commands and the settings tab *)

Module Plugin.

(** The plugin's [settings] are a JavaScript object with string values;
    [data] is what [loadData] returns and [saveData] replaces: the
    parsed data file, or null when there is none.  [apiCaller] is
    undefined until [onload] has run. *)
Record t := mk {
  settings : gmap string string;
  apiCaller : option ApiCaller;
  data : option (gmap string string)
}.

(** [DEFAULT_SETTINGS] as the object it is. *)
Definition DEFAULT_OBJECT : gmap string string :=
  {[ "mySetting" := "default";
     "openaiApiKey" := "";
     "anthropicApiKey" := "";
     "deepseekApiKey" := "";
     "llmProvider" := "openai";
     "llmModelId" := "gpt-4o" ]}.

(** [Object.assign(target, ...sources)]: the properties of each source
    in turn are copied onto the target, a null source is skipped. *)
Fixpoint object_assign (target : gmap string string)
    (sources : list (option (gmap string string))) : gmap string string :=
  match sources with
  | [] => target
  | Some source :: rest => object_assign (source ∪ target) rest
  | None :: rest => object_assign target rest
  end.

Definition loadSettings (this : t) : t :=
  mk (object_assign ∅ [Some DEFAULT_OBJECT; data this]) (apiCaller this) (data this).

Definition saveSettings (this : t) : t :=
  mk (settings this) (apiCaller this) (Some (settings this)).

(** The settings object read through the [SummarizerPluginSettings]
    interface; [None] when a field of the interface is undefined. *)
Definition settings_record (o : gmap string string) : option SummarizerPluginSettings :=
  my ← o !! "mySetting";
  openai ← o !! "openaiApiKey";
  anthropic ← o !! "anthropicApiKey";
  deepseek ← o !! "deepseekApiKey";
  prov ← o !! "llmProvider";
  model ← o !! "llmModelId";
  Some (mkSettings my openai anthropic deepseek prov model).

(** [onload], its first two statements: the settings are loaded and the
    [ApiCaller] is built from them.  (The rest registers the ribbon
    icon, the commands below and the settings tab.) *)
Definition onload (this : t) : t :=
  let this := loadSettings this in
  mk (settings this) (newApiCaller <$> settings_record (settings this)) (data this).

(** *** The commands that open the modal *)

(** What running a command gives: the callback's return value
    (undefined or a boolean) and the modal it opened, if any. *)
Definition CommandRun : Type := option bool * option SummarizerModal.

(** [open-summarizer-modal-simple]: a plain callback; [active] is
    [getActiveViewOfType(MarkdownView)], null when no note is active. *)
Definition open_summarizer_modal_simple (app : App) (caller : ApiCaller)
    (active : option MarkdownView) : CommandRun :=
  (None, Some (mkModal app caller active false)).

(** The [checkCallback] shared by [summarize-current-note-modal]
    ([withLinks] false) and [summarize-current-note-with-links-modal]
    ([withLinks] true). *)
Definition summarize_checkCallback (withLinks : bool) (app : App) (caller : ApiCaller)
    (active : option MarkdownView) (checking : bool) : CommandRun :=
  match active with
  | Some markdownView =>
      (Some true,
       if negb checking then Some (mkModal app caller (Some markdownView) withLinks)
       else None)
  | None => (None, None)
  end.

Definition summarize_current_note_modal := summarize_checkCallback false.
Definition summarize_current_note_with_links_modal := summarize_checkCallback true.

(** [Modal.open] runs [onOpen]: what the opened modal ends up showing. *)
Definition shown (net : Transport) (run : CommandRun) : option (M (list Node)) :=
  onOpen net <$> snd run.

(** *** The settings tab *)

(** The five text inputs of [SummarizerSettingTab.display], in order. *)
Inductive TextField :=
| OpenAIKey
| AnthropicKey
| DeepSeekKey
| LLMProvider
| LLMModelId.

Definition text_fields : list TextField :=
  [OpenAIKey; AnthropicKey; DeepSeekKey; LLMProvider; LLMModelId].

(** The property an input shows and its [onChange] assigns. *)
Definition field_key (fld : TextField) : string :=
  match fld with
  | OpenAIKey => "openaiApiKey"
  | AnthropicKey => "anthropicApiKey"
  | DeepSeekKey => "deepseekApiKey"
  | LLMProvider => "llmProvider"
  | LLMModelId => "llmModelId"
  end.

Record SettingRow := mkRow {
  row_name : string;
  row_desc : string;
  row_placeholder : string;
  row_value : option string   (* [setValue] of the current property *)
}.

Definition field_row (fld : TextField) (value : option string) : SettingRow :=
  match fld with
  | OpenAIKey => mkRow "OpenAI API Key" "Enter your OpenAI API key" "sk-..." value
  | AnthropicKey => mkRow "Anthropic API Key" "Enter your Anthropic API key" "sk-..." value
  | DeepSeekKey =>
      mkRow "DeepSeek API Key" "Enter your DeepSeek API key"
            "Enter your DeepSeek API key" value
  | LLMProvider =>
      mkRow "LLM Provider" "Enter the LLM provider (deepseek, openai, anthropic)"
            "e.g., openai" value
  | LLMModelId => mkRow "LLM Model ID" "Enter the LLM model ID" "e.g., gpt-4o" value
  end.

(** [display]: the rows put into the emptied container. *)
Definition display (this : t) : list SettingRow :=
  map (fun fld => field_row fld (settings this !! field_key fld)) text_fields.

(** The [onChange] handler of an input: the property is assigned, then
    the settings are saved. *)
Definition onChange (fld : TextField) (value : string) (this : t) : t :=
  saveSettings (mk (<[field_key fld := value]> (settings this))
                   (apiCaller this) (data this)).

(** A session at the settings tab: the edits typed, first to last. *)
Definition edit_all (edits : list (TextField * string)) (this : t) : t :=
  fold_left (fun p e => onChange (fst e) (snd e) p) edits this.

#[global] Instance TextField_eq_dec : EqDecision TextField.
Proof. solve_decision. Defined.

(** A settings object that has every property of the defaults. *)
Definition complete (o : gmap string string) : Prop :=
  forall k, is_Some (DEFAULT_OBJECT !! k) -> is_Some (o !! k).

End Plugin.

(** ** The scraper: [src/scrape.js]

    The browser (Playwright), the file system and the clock are the
    host.  What a host call answers may depend on everything that
    happened before, so each answer is a function of the history, the
    list of the calls made so far, oldest first.  A string is the
    sequence of its code units. *)

Module Scraper.

Inductive Ev :=
| Launch
| NewContext
| NewPage
| Close
| Goto (url : string)
| WaitForSelector (selector : string) (timeout : N)
| Content
| Evaluate
| Now
| WriteFile (filename data : string).

Record Host := mkHost {
  launch : list Ev -> Outcome unit;
  newContext : list Ev -> Outcome unit;
  newPage : list Ev -> Outcome unit;
  browser_close : list Ev -> Outcome unit;
  goto : list Ev -> string -> Outcome unit;
  waitForSelector : list Ev -> Outcome unit;
  page_content : list Ev -> Outcome string;
  (* the trimmed [innerText] of the [tweetText] elements, what the
     callback given to [page.evaluate] returns *)
  tweet_texts : list Ev -> Outcome (list string);
  writeFile : list Ev -> string -> string -> Outcome unit;
  toISOString : list Ev -> string;
  (* [JSON.stringify(value, null, 2)] *)
  stringify : list string -> string
}.

(** The fields of a [Scraper]; a handle is either set or null. *)
Record t := mk {
  username : option string;
  password : option string;
  browser : bool;
  context : bool;
  page : bool
}.

(** The constructor. *)
Definition new (username password : option string) : t :=
  mk username password false false false.

(** A computation: from the history and the object to the longer
    history, the object and an outcome. *)
Definition S (A : Type) : Type := list Ev -> t -> list Ev * t * Outcome A.

Definition ret {A} (a : A) : S A := fun h s => (h, s, Ok a).

Definition throw {A} (e : JsError) : S A := fun h s => (h, s, Throw e).

Definition bind {A B} (m : S A) (k : A -> S B) : S B :=
  fun h s =>
    match m h s with
    | (h', s', Ok a) => k a h' s'
    | (h', s', Throw e) => (h', s', Throw e)
    end.

Definition try_catch {A} (m : S A) (handler : JsError -> S A) : S A :=
  fun h s =>
    match m h s with
    | (h', s', Throw e) => handler e h' s'
    | done => done
    end.

(** [try { m } finally { f }]: [f] runs in either case; when [f] throws,
    its error is the outcome. *)
Definition try_finally {A} (m : S A) (f : S unit) : S A :=
  fun h s =>
    match m h s with
    | (h', s', o) =>
        match f h' s' with
        | (h'', s'', Ok _) => (h'', s'', o)
        | (h'', s'', Throw e) => (h'', s'', Throw e)
        end
    end.

(** A call to the host. *)
Definition call {A} (ev : Ev) (answer : list Ev -> Outcome A) : S A :=
  fun h s => (h ++ [ev], s, answer h).

(** A method call on [this.page], a TypeError when the page is null
    (the message is the engine's). *)
Definition on_page {A} (m : S A) : S A :=
  fun h s =>
    if page s then m h s
    else (h, s, Throw (mkError "Cannot read properties of null")).

Definition set_browser : S unit := fun h s =>
  (h, mk (username s) (password s) true (context s) (page s), Ok tt).
Definition set_context : S unit := fun h s =>
  (h, mk (username s) (password s) (browser s) true (page s), Ok tt).
Definition set_page : S unit := fun h s =>
  (h, mk (username s) (password s) (browser s) (context s) true, Ok tt).

Definition history {A} (r : list Ev * t * Outcome A) : list Ev := fst (fst r).
Definition object {A} (r : list Ev * t * Outcome A) : t := snd (fst r).
Definition result {A} (r : list Ev * t * Outcome A) : Outcome A := snd r.

Declare Scope scraper_scope.
Delimit Scope scraper_scope with scraper.
Notation "x <- m ;; k" := (bind m (fun x => k))
  (at level 100, m at next level, right associativity) : scraper_scope.
Local Open Scope scraper_scope.

(** [a-zA-Z0-9] *)
Definition is_alnum (c : ascii) : bool :=
  let n := nat_of_ascii c in
  (Nat.leb 48 n && Nat.leb n 57) || (Nat.leb 65 n && Nat.leb n 90)
  || (Nat.leb 97 n && Nat.leb n 122).

Fixpoint map_units (f : ascii -> ascii) (s : string) : string :=
  match s with
  | EmptyString => EmptyString
  | String c rest => String (f c) (map_units f rest)
  end.

(** [link.replace(/[^a-zA-Z0-9]/g, '_')] *)
Definition sanitize (link : string) : string :=
  map_units (fun c => if is_alnum c then c else "_"%char) link.

(** [iso.replace(/[:.]/g, '-')] *)
Definition dash_stamp (iso : string) : string :=
  map_units (fun c => if Ascii.eqb c ":" || Ascii.eqb c "." then "-"%char else c) iso.

Section WithHost.

Variable host : Host.

Definition initialize : S unit :=
  _ <- call Launch (launch host) ;;
  _ <- set_browser ;;
  _ <- call NewContext (newContext host) ;;
  _ <- set_context ;;
  _ <- call NewPage (newPage host) ;;
  set_page.

Definition close : S unit :=
  fun h s =>
    if browser s then call Close (browser_close host) h s else ret tt h s.

Definition dumpHtml (errorLocation : string) : S unit :=
  try_catch
    (html <- on_page (call Content (page_content host)) ;;
     iso <- call Now (fun h => Ok (toISOString host h)) ;;
     let timestamp := dash_stamp iso in
     let filename := ("error_" ++ errorLocation ++ "_" ++ timestamp ++ ".html")%string in
     _ <- call (WriteFile filename html) (fun h => writeFile host h filename html) ;;
     tweetTexts <- on_page (call Evaluate (tweet_texts host)) ;;
     let textFilename :=
       ("error_" ++ errorLocation ++ "_" ++ timestamp ++ "_tweets.txt")%string in
     let text := stringify host tweetTexts in
     call (WriteFile textFilename text) (fun h => writeFile host h textFilename text))
    (fun err => ret tt).

(** The value is [null] or the object [{ content, tweetTexts }]. *)
Definition extractTweetContent (link : string) : S (option (string * list string)) :=
  try_catch
    (_ <- on_page (call (Goto link) (fun h => goto host h link)) ;;
     article <-
       try_catch
         (_ <- on_page (call (WaitForSelector "article" 10000%N) (waitForSelector host)) ;;
          ret true)
         (fun error =>
            _ <- dumpHtml ("article_wait_" ++ sanitize link) ;;
            ret false) ;;
     if (article : bool) then
       content <- on_page (call Content (page_content host)) ;;
       tweetTexts <- on_page (call Evaluate (tweet_texts host)) ;;
       ret (Some (content, tweetTexts))
     else ret None)
    (fun error =>
       _ <- dumpHtml ("processing_" ++ sanitize link) ;;
       ret None).

(** The [for (const link of links)] loop of [scrapeLinks]. *)
Fixpoint scrape_loop (links : list string) : S unit :=
  match links with
  | [] => ret tt
  | link :: rest =>
      result <- extractTweetContent link ;;
      _ <- match result with
           | Some (content, tweetTexts) =>
               let htmlFilename := (sanitize link ++ ".html")%string in
               let textFilename := (sanitize link ++ "_tweets.txt")%string in
               let text := stringify host tweetTexts in
               _ <- call (WriteFile htmlFilename content)
                         (fun h => writeFile host h htmlFilename content) ;;
               call (WriteFile textFilename text)
                    (fun h => writeFile host h textFilename text)
           | None => ret tt
           end ;;
      scrape_loop rest
  end.

Definition scrapeLinks (links : list string) : S unit :=
  try_finally (_ <- initialize ;; scrape_loop links) close.

End WithHost.

(** The names of the files the calls of a history wrote, or tried to
    write, oldest first. *)
Definition files_written (h : list Ev) : list string :=
  flat_map (fun ev => match ev with WriteFile name _ => [name] | _ => [] end) h.

(** A computation that leaves the object as it was. *)
Definition keeps {A} (m : S A) : Prop :=
  forall h s, object (m h s) = s.

(** A computation that never throws. *)
Definition total {A} (m : S A) : Prop :=
  forall h s, exists a, result (m h s) = Ok a.

(** Does every code unit of a string pass the test? *)
Fixpoint all_units (p : ascii -> bool) (s : string) : bool :=
  match s with
  | EmptyString => true
  | String c rest => p c && all_units p rest
  end.

(** The two files [scrapeLinks] writes for a link. *)
Definition result_files (link : string) : list string :=
  [(sanitize link ++ ".html")%string; (sanitize link ++ "_tweets.txt")%string].

(** Fixtures: a host on which nothing fails, and one on which every page
    of [x.com] fails to load. *)
Definition calm_host : Host :=
  mkHost (fun _ => Ok tt) (fun _ => Ok tt) (fun _ => Ok tt) (fun _ => Ok tt)
         (fun _ _ => Ok tt) (fun _ => Ok tt)
         (fun _ => Ok "<html></html>") (fun _ => Ok ["a tweet"])
         (fun _ _ _ => Ok tt) (fun _ => "2025-03-07T10:20:30.456Z")
         (fun texts => String.concat "," texts).

Definition offline_host : Host :=
  mkHost (fun _ => Ok tt) (fun _ => Ok tt) (fun _ => Ok tt) (fun _ => Ok tt)
         (fun _ url => if String.prefix "https://x.com/" url
                       then Throw (mkError "net::ERR_INTERNET_DISCONNECTED")
                       else Ok tt)
         (fun _ => Ok tt)
         (fun _ => Ok "<html></html>") (fun _ => Ok ["a tweet"])
         (fun _ _ _ => Ok tt) (fun _ => "2025-03-07T10:20:30.456Z")
         (fun texts => String.concat "," texts).

(** A host whose browser cannot be launched. *)
Definition no_browser_host : Host :=
  mkHost (fun _ => Throw (mkError "Executable doesn't exist"))
         (fun _ => Ok tt) (fun _ => Ok tt) (fun _ => Ok tt)
         (fun _ _ => Ok tt) (fun _ => Ok tt)
         (fun _ => Ok "<html></html>") (fun _ => Ok ["a tweet"])
         (fun _ _ _ => Ok tt) (fun _ => "2025-03-07T10:20:30.456Z")
         (fun texts => String.concat "," texts).

(** The two links of [main]. *)
Definition twitterLinks : list string :=
  [ "https://x.com/Hesamation/status/1897667411345580398";
    "https://x.com/kimmonismus/status/1897701427532755340" ].

End Scraper.

(** * Properties *)

(** ** Monad equations *)

Lemma bind_call_ok {A B} (ev : Event) (a : A) (k : A -> M B) :
  bind (call ev (Ok a)) k = (ev :: trace (k a), outcome (k a)).
Proof. unfold bind, call, trace, outcome. destruct (k a); reflexivity. Qed.

Lemma M_eta {A} (m : M A) : m = (trace m, outcome m).
Proof. destruct m; reflexivity. Qed.

(** ** The resolver *)

Lemma files_loop_outcome (app : App) (linkText : string) (files : list TFile) :
  outcome (files_loop app linkText files)
  = Ok (List.find (file_matches app linkText) files).
Proof.
  induction files as [|f rest IH]; [reflexivity|].
  cbn [files_loop List.find]. unfold file_matches at 1.
  destruct (String.eqb (basename f) linkText); [reflexivity|].
  rewrite bind_call_ok. cbn [orb outcome snd].
  destruct (alias_check _ linkText); [reflexivity|exact IH].
Qed.

Lemma resolveLinkedFile_outcome (app : App) (lnk : LinkCache) :
  outcome (resolveLinkedFile app lnk)
  = Ok match getAbstractFileByPath (vault app) (link lnk) with
       | Some (AFile f) => Some f
       | _ => List.find (file_matches app (link lnk)) (getMarkdownFiles (vault app))
       end.
Proof.
  unfold resolveLinkedFile. rewrite bind_call_ok.
  destruct (getAbstractFileByPath (vault app) (link lnk)) as [[f|p]|];
    [reflexivity| |];
    cbv beta iota; rewrite bind_call_ok; apply files_loop_outcome.
Qed.

(** The resolver never throws. *)
Lemma resolveLinkedFile_total (app : App) (lnk : LinkCache) :
  exists r, outcome (resolveLinkedFile app lnk) = Ok r.
Proof. rewrite resolveLinkedFile_outcome; eauto. Qed.

(** *** The three tiers of the design document

    [resolve_tiered] looks at every basename before any alias;
    [files_loop] looks at the aliases of a file before the basename of
    the next one. *)

(** C1, as stated, fails: the token [Beta] is the basename of the second
    note, yet the code returns the first note, whose alias matched
    before the second note's basename was looked at. *)
Lemma tiered_resolution_counterexample :
  resolve_tiered alias_before_basename_app "Beta" = Some beta /\
  outcome (resolveLinkedFile alias_before_basename_app (mkLink "Beta")) = Ok (Some alpha) /\
  ~ tiered_resolution_claim alias_before_basename_app (mkLink "Beta").
Proof.
  assert (Hs : resolve_tiered alias_before_basename_app "Beta" = Some beta)
    by (vm_compute; reflexivity).
  assert (Hc : outcome (resolveLinkedFile alias_before_basename_app (mkLink "Beta"))
               = Ok (Some alpha)) by (vm_compute; reflexivity).
  split; [exact Hs|]. split; [exact Hc|].
  unfold tiered_resolution_claim. cbn [link]. rewrite Hc, Hs. intros H. discriminate H.
Qed.

(** C1 (amended): resolution has two tiers, first match wins.  A file at
    the exact path [t] is returned; otherwise the markdown files are
    enumerated once and the first one whose basename equals [t] or one
    of whose aliases equals [t] is returned, each file's basename and
    aliases being tested together before the next file is looked at;
    otherwise the result is null.  The call never throws. *)
Theorem resolveLinkedFile_first_match (app : App) (lnk : LinkCache) :
  outcome (resolveLinkedFile app lnk)
  = Ok match getAbstractFileByPath (vault app) (link lnk) with
       | Some (AFile f) => Some f
       | _ =>
           List.find
             (fun f => String.eqb (basename f) (link lnk)
                       || alias_check (getFileCache (metadataCache app) f) (link lnk))
             (getMarkdownFiles (vault app))
       end.
Proof. exact (resolveLinkedFile_outcome app lnk). Qed.

(** C5: a file at the exact path [t] is what resolution returns, whatever
    basenames and aliases the rest of the vault has; the markdown files
    are not even enumerated. *)
Theorem exact_path_wins (app : App) (lnk : LinkCache) (f : TFile) :
  getAbstractFileByPath (vault app) (link lnk) = Some (AFile f) ->
  resolveLinkedFile app lnk = ([EvGetAbstractFileByPath (link lnk)], Ok (Some f)).
Proof.
  intros H. unfold resolveLinkedFile. rewrite bind_call_ok, H. reflexivity.
Qed.

Lemma exact_path_wins_witness :
  List.filter (file_matches colliding_app "Beta.md")
              (getMarkdownFiles (vault colliding_app)) = [shadow; alpha] /\
  resolveLinkedFile colliding_app (mkLink "Beta.md")
  = ([EvGetAbstractFileByPath "Beta.md"], Ok (Some top_beta)).
Proof.
  split; [vm_compute; reflexivity|].
  apply (exact_path_wins colliding_app (mkLink "Beta.md") top_beta).
  vm_compute; reflexivity.
Defined.

(** *** Aliases stored as a single string *)

Lemma alias_check_listify (fileCache : option CachedMetadata) (t : string) :
  t <> "" ->
  alias_check (listify_cache fileCache) t = alias_check fileCache t.
Proof.
  intros Ht.
  destruct fileCache as [[lks [[[[[s|b]|l]|]]|]]|]; try reflexivity.
  unfold alias_check; simpl.
  destruct (String.eqb_spec s ""); simpl; [|reflexivity].
  subst s. destruct (String.eqb_spec "" t); [congruence|reflexivity].
Qed.

Lemma files_loop_listify (app : App) (t : string) (files : list TFile) :
  t <> "" ->
  files_loop (listify_app app) t files = files_loop app t files.
Proof.
  intros Ht. induction files as [|f rest IH]; [reflexivity|].
  cbn [files_loop]. destruct (String.eqb (basename f) t); [reflexivity|].
  rewrite !bind_call_ok.
  cbn [listify_app metadataCache getFileCache].
  rewrite (alias_check_listify _ t Ht).
  destruct (alias_check _ t); [reflexivity|].
  rewrite IH. reflexivity.
Qed.

(** C9, as stated, fails at the empty token: the empty string is falsy,
    so line 283 skips the alias check of a note whose alias entry is the
    string [""], while the list [[""]] is truthy and its element matches. *)
Lemma string_alias_counterexample :
  ~ string_alias_claim "" /\
  outcome (resolveLinkedFile (empty_alias_app (ASingle (YStr ""))) (mkLink "")) = Ok None /\
  outcome (resolveLinkedFile (empty_alias_app (AList [YStr ""])) (mkLink ""))
  = Ok (Some untitled).
Proof.
  split; [|split]; [|vm_compute; reflexivity..].
  unfold string_alias_claim. vm_compute. discriminate.
Qed.

(** C9 (amended): for every non-empty token [t], an alias entry stored
    as a single string is treated exactly as the one-element list of
    that string: the alias check answers the same on both, a note whose
    entry is the string [t] is matched like one whose entry is [[t]],
    and resolution over a vault is the same, call for call, when every
    single-string entry is rewritten as a list. *)
Theorem string_alias_as_singleton (app : App) (lnk : LinkCache) :
  link lnk <> "" ->
  (forall s, alias_check (Some (with_aliases (ASingle (YStr s)))) (link lnk)
             = alias_check (Some (with_aliases (AList [YStr s]))) (link lnk)) /\
  alias_check (Some (with_aliases (ASingle (YStr (link lnk))))) (link lnk) = true /\
  string_alias_claim (link lnk) /\
  resolveLinkedFile (listify_app app) lnk = resolveLinkedFile app lnk.
Proof.
  intros Ht.
  assert (Hs : forall s,
             alias_check (Some (with_aliases (ASingle (YStr s)))) (link lnk)
             = alias_check (Some (with_aliases (AList [YStr s]))) (link lnk)).
  { intros s.
    exact (eq_sym (alias_check_listify
                     (Some (with_aliases (ASingle (YStr s)))) (link lnk) Ht)). }
  split; [exact Hs|]. split; [|split; [exact (Hs (link lnk))|]].
  - unfold alias_check; simpl.
    destruct (String.eqb_spec (link lnk) ""); [contradiction|]. simpl.
    rewrite String.eqb_refl. reflexivity.
  - unfold resolveLinkedFile. rewrite !bind_call_ok.
    cbn [listify_app vault].
    destruct (getAbstractFileByPath (vault app) (link lnk)) as [[f|p]|];
      [reflexivity| |]; cbv beta iota; rewrite ?bind_call_ok;
      rewrite (files_loop_listify app (link lnk) _ Ht); reflexivity.
Qed.

Lemma string_alias_as_singleton_witness :
  alias_check (Some (with_aliases (ASingle (YStr "Beta")))) "Beta" = true /\
  resolveLinkedFile (listify_app colliding_app) (mkLink "Beta")
  = resolveLinkedFile colliding_app (mkLink "Beta").
Proof.
  assert (Ht : link (mkLink "Beta") <> "") by (simpl; discriminate).
  split;
    [exact (proj1 (proj2 (string_alias_as_singleton colliding_app (mkLink "Beta") Ht)))
    |exact (proj2 (proj2 (proj2
              (string_alias_as_singleton colliding_app (mkLink "Beta") Ht))))].
Defined.

(** ** The aggregator *)

Lemma links_loop_step (app : App) (lnk : LinkCache) (rest : list LinkCache)
    (acc : list string) :
  links_loop app (lnk :: rest) acc
  = (link_trace app lnk ++ trace (links_loop app rest (acc ++ link_entries app lnk)),
     outcome (links_loop app rest (acc ++ link_entries app lnk))).
Proof.
  cbn [links_loop]. unfold link_trace, link_entries.
  destruct (resolveLinkedFile_total app lnk) as [r Hr]. rewrite Hr.
  destruct (resolveLinkedFile app lnk) as [t o]. cbn [outcome trace fst snd] in *.
  subst o. unfold bind, call, ret, try_catch.
  destruct r as [f|]; [destruct (cachedRead (vault app) f) as [text|e]|];
    rewrite ?app_nil_r;
    destruct (links_loop app rest _) as [t' o'];
    cbn [trace outcome fst snd]; rewrite ?app_nil_r; reflexivity.
Qed.

Lemma links_loop_outcome (app : App) (lks : list LinkCache) (acc : list string) :
  outcome (links_loop app lks acc) = Ok (acc ++ flat_map (link_entries app) lks).
Proof.
  revert acc. induction lks as [|lnk rest IH]; intros acc.
  - simpl. rewrite app_nil_r. reflexivity.
  - rewrite links_loop_step. cbn [outcome snd flat_map].
    rewrite IH, <- app_assoc. reflexivity.
Qed.

Lemma links_loop_trace (app : App) (lks : list LinkCache) (acc : list string) :
  trace (links_loop app lks acc) = flat_map (link_trace app) lks.
Proof.
  revert acc. induction lks as [|lnk rest IH]; intros acc; [reflexivity|].
  rewrite links_loop_step. cbn [trace fst flat_map]. rewrite IH. reflexivity.
Qed.

(** [getLinkedContents] on a root whose own read succeeds. *)
Lemma getLinkedContents_readable (app : App) (root : TFile) (text : string) :
  cachedRead (vault app) root = Ok text ->
  getLinkedContents app (Some root)
  = (EvGetFileCache root :: EvCachedRead root
       :: flat_map (link_trace app) (root_links app root),
     Ok (String.concat "" (flat_map (link_entries app) (root_links app root)))).
Proof.
  intros Hread. unfold getLinkedContents, root_links.
  rewrite bind_call_ok. rewrite Hread, bind_call_ok.
  destruct (cache_links (getFileCache (metadataCache app) root)) as [lks|].
  - rewrite (M_eta (links_loop app lks [])).
    rewrite links_loop_outcome, links_loop_trace.
    cbn [bind ret trace outcome fst snd Datatypes.app]. rewrite app_nil_r. reflexivity.
  - reflexivity.
Qed.

(** [getLinkedContents] on a root whose own read fails: the rejection of
    line 308 is the call's outcome. *)
Lemma getLinkedContents_unreadable (app : App) (root : TFile) (e : JsError) :
  cachedRead (vault app) root = Throw e ->
  getLinkedContents app (Some root)
  = ([EvGetFileCache root; EvCachedRead root], Throw e).
Proof.
  intros Hread. unfold getLinkedContents.
  rewrite bind_call_ok, Hread. reflexivity.
Qed.

(** *** The aggregate and its isolation from read failures *)

(** C2, as stated, fails: a root with no links at all whose own text
    cannot be read (line 308, outside every [try]) makes the call
    reject, where the claim has the empty string. *)
Lemma aggregate_counterexample :
  root_links (home_app [] ∅) home = [] /\
  expected_aggregate (home_app [] ∅) home = "" /\
  outcome (getLinkedContents (home_app [] ∅) (Some home))
  = Throw (mkError "ENOENT: Home.md") /\
  ~ aggregate_claim (home_app [] ∅) home.
Proof.
  assert (Hc : outcome (getLinkedContents (home_app [] ∅) (Some home))
               = Throw (mkError "ENOENT: Home.md")) by (vm_compute; reflexivity).
  split; [vm_compute; reflexivity|].
  split; [vm_compute; reflexivity|].
  split; [exact Hc|].
  unfold aggregate_claim. rewrite Hc. discriminate.
Qed.

(** C2 (amended): for every root document whose own text can be read,
    the aggregate is exactly the concatenation, in link order, of one
    entry ["Internal Link (<token>):\n<text>\n\n"] per link that
    resolves and whose text is read; a link that resolves to nothing
    contributes no entry and the later links are still processed;
    duplicates are kept (links [a, b, a] with [a] resolving and [b] not
    give two entries for [a]); and if no link resolves the aggregate is
    the empty string. *)
Theorem aggregate_in_discovery_order (app : App) (root : TFile) (text : string) :
  cachedRead (vault app) root = Ok text ->
  aggregate_claim app root /\
  (forall lnk, outcome (resolveLinkedFile app lnk) = Ok None ->
               link_entries app lnk = []) /\
  (forall a b f t,
      root_links app root = [a; b; a] ->
      outcome (resolveLinkedFile app a) = Ok (Some f) ->
      cachedRead (vault app) f = Ok t ->
      outcome (resolveLinkedFile app b) = Ok None ->
      outcome (getLinkedContents app (Some root))
      = Ok (internal_link_entry (link a) t ++ internal_link_entry (link a) t)%string) /\
  ((forall lnk, In lnk (root_links app root) ->
                outcome (resolveLinkedFile app lnk) = Ok None) ->
   outcome (getLinkedContents app (Some root)) = Ok "").
Proof.
  intros Hread.
  assert (Hmain : aggregate_claim app root).
  { unfold aggregate_claim. rewrite (getLinkedContents_readable app root text Hread).
    reflexivity. }
  split; [exact Hmain|]. split; [|split].
  - intros lnk Hnone. unfold link_entries. rewrite Hnone. reflexivity.
  - intros a b f t Hlinks Ha Hf Hb.
    rewrite Hmain. unfold expected_aggregate. rewrite Hlinks.
    cbn [flat_map]. unfold link_entries. rewrite Ha, Hf, Hb. reflexivity.
  - intros Hnone. rewrite Hmain. unfold expected_aggregate.
    induction (root_links app root) as [|lnk rest IH]; [reflexivity|].
    cbn [flat_map]. unfold link_entries at 1.
    rewrite (Hnone lnk (or_introl eq_refl)).
    apply IH. intros l Hl. apply Hnone. right. exact Hl.
Qed.

Lemma aggregate_in_discovery_order_witness :
  cachedRead (vault (home_app ["Alpha"; "Missing"; "Alpha"] all_texts)) home
  = Ok "home text" /\
  outcome (getLinkedContents (home_app ["Alpha"; "Missing"; "Alpha"] all_texts)
                             (Some home))
  = Ok "Internal Link (Alpha):
alpha text

Internal Link (Alpha):
alpha text

".
Proof.
  assert (Hread : cachedRead (vault (home_app ["Alpha"; "Missing"; "Alpha"] all_texts))
                             home = Ok "home text") by (vm_compute; reflexivity).
  split; [exact Hread|].
  refine (eq_trans
            (proj1 (aggregate_in_discovery_order
                      (home_app ["Alpha"; "Missing"; "Alpha"] all_texts)
                      home "home text" Hread)) _).
  vm_compute; reflexivity.
Defined.

(** C4, as stated, fails: the read of the second of three resolvable
    references fails, and the call rejects instead of returning the two
    other entries, because the unreadable file is the root itself and
    the root is read at line 308, before the loop and outside its [try]. *)
Lemma fault_isolation_counterexample :
  Forall (resolves self_link_app) (root_links self_link_app home) /\
  map (fun lnk => outcome (resolveLinkedFile self_link_app lnk))
      (root_links self_link_app home)
  = [Ok (Some alpha); Ok (Some home); Ok (Some beta)] /\
  map (cachedRead (vault self_link_app)) [alpha; home; beta]
  = [Ok "alpha text"; Throw (mkError "ENOENT: Home.md"); Ok "beta text"] /\
  getLinkedContents self_link_app (Some home)
  = ([EvGetFileCache home; EvCachedRead home], Throw (mkError "ENOENT: Home.md")) /\
  ~ fault_isolation_claim self_link_app home.
Proof.
  assert (Hres : Forall (resolves self_link_app) (root_links self_link_app home)).
  { repeat constructor; eexists; vm_compute; reflexivity. }
  assert (Hc : getLinkedContents self_link_app (Some home)
               = ([EvGetFileCache home; EvCachedRead home],
                  Throw (mkError "ENOENT: Home.md"))) by (vm_compute; reflexivity).
  split; [exact Hres|].
  split; [vm_compute; reflexivity|].
  split; [vm_compute; reflexivity|].
  split; [exact Hc|].
  intros Hclaim. destruct (Hclaim Hres) as [Hok _].
  rewrite Hc in Hok. discriminate Hok.
Qed.

(** C4 (amended): for every root document whose own text can be read and
    whose references all resolve, a failed read of a resolved reference
    is caught inside the aggregator: the call completes, no entry is
    appended for that reference, and every other reference is still
    read and contributes its entry.  In particular, when the read of the
    second of three resolvable references fails, the aggregate is the
    first entry followed by the third. *)
Theorem read_failures_are_isolated (app : App) (root : TFile) (text : string) :
  cachedRead (vault app) root = Ok text ->
  fault_isolation_claim app root /\
  (forall l1 l2 l3 f1 f2 f3 t1 t3 e,
      root_links app root = [l1; l2; l3] ->
      outcome (resolveLinkedFile app l1) = Ok (Some f1) ->
      outcome (resolveLinkedFile app l2) = Ok (Some f2) ->
      outcome (resolveLinkedFile app l3) = Ok (Some f3) ->
      cachedRead (vault app) f1 = Ok t1 ->
      cachedRead (vault app) f2 = Throw e ->
      cachedRead (vault app) f3 = Ok t3 ->
      outcome (getLinkedContents app (Some root))
      = Ok (internal_link_entry (link l1) t1 ++ internal_link_entry (link l3) t3)%string).
Proof.
  intros Hread.
  pose proof (getLinkedContents_readable app root text Hread) as Hrun.
  split.
  - intros _. split; [rewrite Hrun; reflexivity|].
    intros lnk f Hin Hres. rewrite Hrun. cbn [trace fst].
    right; right. apply in_flat_map. exists lnk. split; [exact Hin|].
    unfold link_trace. rewrite Hres. apply in_or_app. right. left. reflexivity.
  - intros l1 l2 l3 f1 f2 f3 t1 t3 e Hlinks H1 H2 H3 R1 R2 R3.
    rewrite Hrun. cbn [outcome snd]. rewrite Hlinks. cbn [flat_map].
    unfold link_entries. rewrite H1, H2, H3, R1, R2, R3. reflexivity.
Qed.

Lemma read_failures_are_isolated_witness :
  cachedRead (vault broken_beta_app) home = Ok "home text" /\
  cachedRead (vault broken_beta_app) beta = Throw (mkError "ENOENT: Archive/Beta.md") /\
  outcome (getLinkedContents broken_beta_app (Some home))
  = Ok "Internal Link (Alpha):
alpha text

Internal Link (Projects/Alpha.md):
alpha text

".
Proof.
  assert (Hread : cachedRead (vault broken_beta_app) home = Ok "home text")
    by (vm_compute; reflexivity).
  split; [exact Hread|]. split; [vm_compute; reflexivity|].
  apply (proj2 (read_failures_are_isolated broken_beta_app home "home text" Hread)
               (mkLink "Alpha") (mkLink "B") (mkLink "Projects/Alpha.md")
               alpha beta alpha "alpha text" "alpha text"
               (mkError "ENOENT: Archive/Beta.md"));
    vm_compute; reflexivity.
Defined.

(** C10: with no root document the aggregation entry point returns the
    empty string and makes no host call at all: no path lookup, no
    listing, no metadata query, no read. *)
Theorem getLinkedContents_no_file (app : App) :
  getLinkedContents app None = ([], Ok "").
Proof. reflexivity. Qed.

(** ** The completion client *)

(** C6: with a provider other than [openai], [anthropic] and [deepseek]
    the completion call throws [Unsupported provider: <provider>], the
    message naming the configured value, and no host call, hence no
    network request, has been made when it does. *)
Theorem unsupported_provider_fails (net : Transport) (this : ApiCaller)
    (msgs : list Message) :
  provider this <> "openai" ->
  provider this <> "anthropic" ->
  provider this <> "deepseek" ->
  chatCompletion net this msgs
  = ([], Throw (mkError ("Unsupported provider: " ++ provider this))).
Proof.
  intros Ho Ha Hd. unfold chatCompletion, createClient.
  destruct (String.eqb_spec (provider this) "openai"); [contradiction|].
  destruct (String.eqb_spec (provider this) "anthropic"); [contradiction|].
  destruct (String.eqb_spec (provider this) "deepseek"); [contradiction|].
  reflexivity.
Qed.

Lemma unsupported_provider_fails_witness :
  chatCompletion echo_net (newApiCaller foo_settings) (messages false "X" "")
  = ([], Throw (mkError "Unsupported provider: foo")).
Proof.
  apply (unsupported_provider_fails echo_net (newApiCaller foo_settings)
                                    (messages false "X" ""));
    vm_compute; discriminate.
Defined.

(** On a known provider [chatCompletion] makes one [create] call, with
    the configured model and the messages it was given. *)
Lemma chatCompletion_known (net : Transport) (this : ApiCaller)
    (msgs : list Message) (baseUrl : string) :
  known_provider (provider this) baseUrl ->
  chatCompletion net this msgs
  = (let r := mkRequest baseUrl (apiKey this) (llmModelId this) msgs in
     ([EvChatCreate r], net r)).
Proof.
  intros [[Hp ->]|[[Hp ->]|[Hp ->]]];
    unfold chatCompletion, createClient; rewrite Hp; reflexivity.
Qed.

(** ** The prompt *)

Lemma length_append (s1 s2 : string) :
  String.length (s1 ++ s2) = String.length s1 + String.length s2.
Proof. induction s1 as [|c s1 IH]; simpl; [reflexivity|rewrite IH; reflexivity]. Qed.

(** C7: the prompt is two messages, the fixed system message and one
    user message; without links the user message is the fixed heading
    followed by the whole root text, with links it is the fixed heading,
    the whole root text, the [Linked Content:] heading and the whole
    aggregate.  Nothing is cut: the length of the user message is that
    of the fixed text plus those of the inputs. *)
Theorem prompt_is_two_messages (rootText aggregateText : string) (withLinks : bool) :
  messages withLinks rootText aggregateText
  = [ mkMessage "system" "You are a helpful assistant that briefly summarizes text.";
      mkMessage "user"
        (if withLinks
         then "Please briefly summarize the following text and its linked content:

Main Content:
" ++ rootText ++ "

Linked Content:
" ++ aggregateText
         else "Please briefly summarize the following text:

" ++ rootText) ] /\
  length (messages withLinks rootText aggregateText) = 2 /\
  String.length (promptContent withLinks rootText aggregateText)
  = if withLinks
    then 83 + String.length rootText + 18 + String.length aggregateText
    else 46 + String.length rootText.
Proof.
  split; [reflexivity|]. split; [reflexivity|].
  destruct withLinks; unfold promptContent; rewrite !length_append; simpl; lia.
Qed.

(** ** The summary text *)

(** C8: when the response's first choice has no usable content (null,
    or the empty string) the text shown is the literal
    [No summary available] and nothing is thrown; otherwise it is the
    first choice's content. *)
Theorem summary_text_fallback (rest : list Choice) :
  summary_text (mkCompletion (mkChoice None :: rest))
  = ([], Ok "No summary available") /\
  summary_text (mkCompletion (mkChoice (Some "") :: rest))
  = ([], Ok "No summary available") /\
  forall c text, summary_text (mkCompletion (mkChoice (Some (String c text)) :: rest))
                 = ([], Ok (String c text)).
Proof. split; [reflexivity|]. split; [reflexivity|]. intros c text. reflexivity. Qed.

(** The guarded block on a known provider that answers: one request,
    carrying the configured model and the two messages, and the first
    choice's text (or the fallback) under a heading. *)
Lemma summary_block_known (net : Transport) (this : SummarizerModal)
    (content additionalContent baseUrl : string) (c : Choice) (rest : list Choice) :
  known_provider (provider (apiCaller this)) baseUrl ->
  let r := mkRequest baseUrl (apiKey (apiCaller this)) (llmModelId (apiCaller this))
                     (messages (summarizeWithLinks this) content additionalContent) in
  net r = Ok (mkCompletion (c :: rest)) ->
  summary_block net this content additionalContent
  = ([EvChatCreate r],
     Ok [ El "h3" (if summarizeWithLinks this
                   then "Summary (with linked content)" else "Summary");
          El "p" (or_default (choice_content c) "No summary available") ]).
Proof.
  intros Hk r Hnet. unfold summary_block.
  rewrite (chatCompletion_known net _ _ baseUrl Hk). cbv zeta. fold r.
  rewrite Hnet. reflexivity.
Qed.

Lemma summary_block_one_request (net : Transport) (this : SummarizerModal)
    (content additionalContent baseUrl : string) :
  known_provider (provider (apiCaller this)) baseUrl ->
  requests_issued (trace (summary_block net this content additionalContent)) = 1.
Proof.
  intros Hk. unfold summary_block.
  rewrite (chatCompletion_known net _ _ baseUrl Hk). cbv zeta.
  destruct (net _) as [[[|c rest]]|e]; reflexivity.
Qed.

(** ** The modal *)

Lemma files_loop_vault_only (app : App) (t : string) (files : list TFile) :
  vault_only (trace (files_loop app t files)).
Proof.
  induction files as [|f rest IH]; [constructor|].
  cbn [files_loop]. destruct (String.eqb (basename f) t); [constructor|].
  rewrite bind_call_ok. cbn [trace fst].
  constructor; [reflexivity|].
  destruct (alias_check _ t); [constructor|exact IH].
Qed.

Lemma resolveLinkedFile_vault_only (app : App) (lnk : LinkCache) :
  vault_only (trace (resolveLinkedFile app lnk)).
Proof.
  unfold resolveLinkedFile. rewrite bind_call_ok. cbn [trace fst].
  constructor; [reflexivity|].
  destruct (getAbstractFileByPath (vault app) (link lnk)) as [[f|p]|];
    [constructor| |]; cbv beta iota; rewrite bind_call_ok; cbn [trace fst];
    (constructor; [reflexivity|apply files_loop_vault_only]).
Qed.

Lemma link_trace_vault_only (app : App) (lnk : LinkCache) :
  vault_only (link_trace app lnk).
Proof.
  unfold link_trace. apply Forall_app. split.
  - apply resolveLinkedFile_vault_only.
  - destruct (outcome (resolveLinkedFile app lnk)) as [[f|]|e];
      repeat constructor.
Qed.

Lemma getLinkedContents_vault_only (app : App) (file : option TFile) :
  vault_only (trace (getLinkedContents app file)).
Proof.
  destruct file as [root|]; [|constructor].
  destruct (cachedRead (vault app) root) as [text|e] eqn:Hread.
  - rewrite (getLinkedContents_readable app root text Hread). cbn [trace fst].
    do 2 (constructor; [reflexivity|]).
    induction (root_links app root) as [|lnk rest IH]; [constructor|].
    cbn [flat_map]. apply Forall_app. split; [apply link_trace_vault_only|exact IH].
  - rewrite (getLinkedContents_unreadable app root e Hread).
    repeat constructor.
Qed.

Lemma vault_only_no_request (t : list Event) :
  vault_only t -> requests_issued t = 0.
Proof.
  unfold requests_issued. induction 1 as [|ev t Hev _ IH]; [reflexivity|].
  cbn [List.filter]. rewrite Hev. exact IH.
Qed.

(** What [onOpen] does: the linked contents are gathered when asked
    for, then the raw content is shown (or the error of the gathering);
    the guarded block is never entered. *)
Lemma onOpen_trace (net : Transport) (this : SummarizerModal) :
  trace (onOpen net this)
  = if summarizeWithLinks this then
      match view_file (markdownView this) with
      | Some f => trace (getLinkedContents (app this) (Some f))
      | None => []
      end
    else [].
Proof.
  unfold onOpen.
  destruct (summarizeWithLinks this); [|reflexivity].
  destruct (view_file (markdownView this)) as [f|]; [|reflexivity].
  destruct (getLinkedContents (app this) (Some f)) as [t [s|e]];
    cbn [bind ret try_catch trace fst]; rewrite ?app_nil_r; reflexivity.
Qed.

(** C3 (the code as it is): no summarization invocation issues a
    completion request.  The condition of line 231 is the literal
    [false], so [onOpen] never reaches [chatCompletion]: the claim's
    one request per invocation is zero requests. *)
Theorem onOpen_issues_no_request (net : Transport) (this : SummarizerModal) :
  requests_issued (trace (onOpen net this)) = 0.
Proof.
  apply vault_only_no_request. rewrite onOpen_trace.
  destruct (summarizeWithLinks this); [|constructor].
  destruct (view_file (markdownView this)) as [f|]; [|constructor].
  apply getLinkedContents_vault_only.
Qed.

Example onOpen_plain_modal :
  onOpen echo_net plain_modal
  = ([], Ok [Txt "No API caller available. Raw content:

home text"]).
Proof. vm_compute; reflexivity. Qed.

Example onOpen_linked_modal :
  onOpen echo_net linked_modal
  = ([EvGetFileCache home; EvCachedRead home;
      EvGetAbstractFileByPath "Alpha"; EvGetMarkdownFiles;
      EvGetFileCache home; EvCachedRead alpha],
     Ok [Txt "No API caller available. Raw content:

home text"]).
Proof. vm_compute; reflexivity. Qed.

(** * Further properties of the code *)

(** ** Resolution *)

Lemma find_none_iff {A} (p : A -> bool) (l : list A) :
  List.find p l = None <-> forall x, In x l -> p x = false.
Proof.
  split; [apply find_none|].
  induction l as [|x l IH]; intros H; [reflexivity|].
  cbn [List.find]. rewrite (H x (or_introl eq_refl)).
  apply IH. intros y Hy. apply H. right. exact Hy.
Qed.

Lemma find_first {A} (p : A -> bool) (l : list A) (x : A) :
  List.find p l = Some x ->
  exists before after,
    l = before ++ x :: after /\ p x = true /\ forall y, In y before -> p y = false.
Proof.
  induction l as [|a l IH]; [discriminate|].
  cbn [List.find]. destruct (p a) eqn:Hpa.
  - intros [= <-]. exists [], l. split; [reflexivity|]. split; [exact Hpa|].
    intros y [].
  - intros Hfind. destruct (IH Hfind) as (before & after & -> & Hx & Hbefore).
    exists (a :: before), after. split; [reflexivity|]. split; [exact Hx|].
    intros y [<-|Hy]; [exact Hpa|apply Hbefore; exact Hy].
Qed.

Lemma file_matches_false (app : App) (t : string) (f : TFile) :
  file_matches app t f = false <->
  basename f <> t /\ alias_check (getFileCache (metadataCache app) f) t = false.
Proof.
  unfold file_matches. rewrite orb_false_iff, String.eqb_neq. reflexivity.
Qed.

(** X1: the resolver answers null exactly when nothing matches: there is no
    file at the exact path, and no listed markdown file has the token
    as its basename or passes the alias check. *)
Theorem resolveLinkedFile_null_iff (app : App) (lnk : LinkCache) :
  outcome (resolveLinkedFile app lnk) = Ok None <->
  (forall f, getAbstractFileByPath (vault app) (link lnk) <> Some (AFile f)) /\
  (forall f, In f (getMarkdownFiles (vault app)) ->
             basename f <> link lnk /\
             alias_check (getFileCache (metadataCache app) f) (link lnk) = false).
Proof.
  rewrite resolveLinkedFile_outcome.
  assert (Hfind : List.find (file_matches app (link lnk)) (getMarkdownFiles (vault app))
                  = None <->
                  forall f, In f (getMarkdownFiles (vault app)) ->
                            basename f <> link lnk /\
                            alias_check (getFileCache (metadataCache app) f) (link lnk)
                            = false).
  { rewrite find_none_iff. split; intros H f Hf; apply file_matches_false, H, Hf. }
  destruct (getAbstractFileByPath (vault app) (link lnk)) as [[f|p]|].
  - split; [discriminate|]. intros [H _]. destruct (H f eq_refl).
  - split.
    + intros [= H]. split; [discriminate|]. apply Hfind, H.
    + intros [_ H]. f_equal. apply Hfind, H.
  - split.
    + intros [= H]. split; [discriminate|]. apply Hfind, H.
    + intros [_ H]. f_equal. apply Hfind, H.
Qed.

(** X2: a file the resolver returns is either the file at the exact path, or
    a listed markdown file that matches by basename or alias and is the
    first such file of the listing. *)
Theorem resolveLinkedFile_sound (app : App) (lnk : LinkCache) (f : TFile) :
  outcome (resolveLinkedFile app lnk) = Ok (Some f) ->
  getAbstractFileByPath (vault app) (link lnk) = Some (AFile f) \/
  exists before after,
    getMarkdownFiles (vault app) = before ++ f :: after /\
    (basename f = link lnk \/
     alias_check (getFileCache (metadataCache app) f) (link lnk) = true) /\
    forall g, In g before ->
              basename g <> link lnk /\
              alias_check (getFileCache (metadataCache app) g) (link lnk) = false.
Proof.
  rewrite resolveLinkedFile_outcome. intros [= H].
  assert (Hlist : List.find (file_matches app (link lnk)) (getMarkdownFiles (vault app))
                  = Some f ->
                  exists before after,
                    getMarkdownFiles (vault app) = before ++ f :: after /\
                    (basename f = link lnk \/
                     alias_check (getFileCache (metadataCache app) f) (link lnk) = true) /\
                    forall g, In g before ->
                              basename g <> link lnk /\
                              alias_check (getFileCache (metadataCache app) g) (link lnk)
                              = false).
  { intros Hfind. destruct (find_first _ _ _ Hfind) as (before & after & Heq & Hf & Hb).
    exists before, after. split; [exact Heq|]. split.
    - unfold file_matches in Hf. apply orb_true_iff in Hf.
      destruct Hf as [Hf|Hf]; [left; apply String.eqb_eq, Hf|right; exact Hf].
    - intros g Hg. apply file_matches_false, Hb, Hg. }
  destruct (getAbstractFileByPath (vault app) (link lnk)) as [[f'|p]|].
  - left. congruence.
  - right. apply Hlist, H.
  - right. apply Hlist, H.
Qed.

Lemma resolveLinkedFile_sound_witness :
  exists before after,
    getMarkdownFiles (vault alias_before_basename_app) = before ++ alpha :: after /\
    (basename alpha = "Beta" \/
     alias_check (getFileCache (metadataCache alias_before_basename_app) alpha) "Beta"
     = true) /\
    forall g, In g before ->
              basename g <> "Beta" /\
              alias_check (getFileCache (metadataCache alias_before_basename_app) g) "Beta"
              = false.
Proof.
  destruct (resolveLinkedFile_sound alias_before_basename_app (mkLink "Beta") alpha)
    as [Hpath|Hlist]; [vm_compute; reflexivity| |exact Hlist].
  vm_compute in Hpath. discriminate Hpath.
Defined.

Lemma alias_loop_In (als : list YamlValue) (t : string) :
  alias_loop als t = true <-> In (YStr t) als.
Proof.
  induction als as [|v rest IH]; [split; [discriminate|intros []]|].
  cbn [alias_loop In]. destruct v as [s|b]; cbn [strict_eq].
  - destruct (String.eqb_spec s t) as [->|Hne].
    + split; [left; reflexivity|reflexivity].
    + rewrite IH. split; [right; assumption|].
      intros [[= Heq]|H]; [contradiction|exact H].
  - rewrite IH. split; [right; assumption|].
    intros [Heq|H]; [discriminate Heq|exact H].
Qed.

(** X3: the alias check of a file passes exactly when its front matter has
    an [aliases] entry that is truthy and, taken as a list, holds the
    token as one of its string elements.  So an absent cache, absent
    front matter, an absent or empty-string entry, an empty list and
    values that are not strings never match. *)
Theorem alias_check_iff (fileCache : option CachedMetadata) (t : string) :
  alias_check fileCache t = true <->
  exists a, raw_aliases fileCache = Some a /\
            truthy_aliases a = true /\
            In (YStr t) (as_array a).
Proof.
  unfold alias_check. destruct (raw_aliases fileCache) as [a|].
  - destruct (truthy_aliases a) eqn:Htruthy.
    + rewrite alias_loop_In. split.
      * intros H. exists a. auto.
      * intros (a' & [= <-] & _ & H). exact H.
    + split; [discriminate|]. intros (a' & [= <-] & Ht & _). congruence.
  - split; [discriminate|]. intros (a' & Ha & _). discriminate Ha.
Qed.

(** What the resolver asks of the host. *)
Lemma files_loop_trace_queries (app : App) (t : string) (files : list TFile) :
  Forall (fun ev => match ev with
                    | EvGetFileCache f => In f files
                    | _ => False
                    end)
         (trace (files_loop app t files)) /\
  length (trace (files_loop app t files)) <= length files.
Proof.
  induction files as [|f rest [IHq IHn]]; [split; [constructor|reflexivity]|].
  cbn [files_loop]. destruct (String.eqb (basename f) t).
  - split; [constructor|cbn; lia].
  - rewrite bind_call_ok. cbn [trace fst].
    destruct (alias_check _ t).
    + split; [repeat constructor|cbn; lia].
    + split.
      * constructor; [left; reflexivity|].
        eapply List.Forall_impl; [|exact IHq].
        intros ev Hev; destruct ev; cbn in *; auto.
      * cbn [length]. lia.
Qed.

(** X4: resolution only looks things up: one path lookup, at most one
    listing, and metadata queries for listed files only, at most one per
    listed file.  It reads no file's text and calls no provider. *)
Theorem resolveLinkedFile_only_queries (app : App) (lnk : LinkCache) :
  Forall (fun ev => match ev with
                    | EvGetAbstractFileByPath p => p = link lnk
                    | EvGetMarkdownFiles => True
                    | EvGetFileCache f => In f (getMarkdownFiles (vault app))
                    | EvCachedRead _ => False
                    | EvChatCreate _ => False
                    end)
         (trace (resolveLinkedFile app lnk)) /\
  length (trace (resolveLinkedFile app lnk))
  <= 2 + length (getMarkdownFiles (vault app)).
Proof.
  unfold resolveLinkedFile. rewrite bind_call_ok. cbn [trace fst].
  destruct (files_loop_trace_queries app (link lnk) (getMarkdownFiles (vault app)))
    as [Hq Hn].
  assert (Hq' : Forall (fun ev => match ev with
                                  | EvGetAbstractFileByPath p => p = link lnk
                                  | EvGetMarkdownFiles => True
                                  | EvGetFileCache f => In f (getMarkdownFiles (vault app))
                                  | EvCachedRead _ => False
                                  | EvChatCreate _ => False
                                  end)
                       (trace (files_loop app (link lnk) (getMarkdownFiles (vault app))))).
  { eapply List.Forall_impl; [|exact Hq].
    intros ev Hev; destruct ev; cbn in *; auto; contradiction. }
  destruct (getAbstractFileByPath (vault app) (link lnk)) as [[f|p]|];
    cbv beta iota; rewrite ?bind_call_ok; cbn [trace fst ret length];
    (split; [repeat (constructor; [exact I || reflexivity|]); try constructor; try exact Hq'
            |lia]).
Qed.

(** ** Aggregation *)

(** X5: the aggregation call rejects exactly when the read of the root
    document itself rejects, and then with that read's error: nothing
    that happens to a link makes it reject. *)
Theorem getLinkedContents_rejects_iff (app : App) (root : TFile) (e : JsError) :
  outcome (getLinkedContents app (Some root)) = Throw e <->
  cachedRead (vault app) root = Throw e.
Proof.
  destruct (cachedRead (vault app) root) as [text|e'] eqn:Hread.
  - rewrite (getLinkedContents_readable app root text Hread).
    split; discriminate.
  - rewrite (getLinkedContents_unreadable app root e' Hread). reflexivity.
Qed.

(** X6: a root document with no links (no cached metadata, no [links]
    entry, or an empty one): the metadata is queried, the root is read,
    and the aggregate is the empty string; neither the path index nor
    the listing is consulted. *)
Theorem getLinkedContents_without_links (app : App) (root : TFile) (text : string) :
  root_links app root = [] ->
  cachedRead (vault app) root = Ok text ->
  getLinkedContents app (Some root)
  = ([EvGetFileCache root; EvCachedRead root], Ok "").
Proof.
  intros Hlinks Hread.
  rewrite (getLinkedContents_readable app root text Hread), Hlinks. reflexivity.
Qed.

Lemma getLinkedContents_without_links_witness :
  getLinkedContents (home_app [] all_texts) (Some alpha)
  = ([EvGetFileCache alpha; EvCachedRead alpha], Ok "").
Proof.
  apply (getLinkedContents_without_links (home_app [] all_texts) alpha "alpha text");
    vm_compute; reflexivity.
Defined.

(** X7: the link loop composes: going through [l1 ++ l2] is going through
    [l1] and then through [l2], starting from the entries [l1] left. *)
Theorem links_loop_app (app : App) (l1 l2 : list LinkCache) (acc : list string) :
  links_loop app (l1 ++ l2) acc
  = (acc1 <- links_loop app l1 acc ;; links_loop app l2 acc1).
Proof.
  rewrite (M_eta (links_loop app (l1 ++ l2) acc)).
  rewrite (M_eta (links_loop app l1 acc)).
  rewrite !links_loop_outcome, !links_loop_trace.
  cbn [bind]. rewrite (M_eta (links_loop app l2 _)).
  rewrite links_loop_outcome, links_loop_trace.
  rewrite !flat_map_app, app_assoc. reflexivity.
Qed.

(** ** The modal *)

(** X8: [onOpen] never throws, and what it ends up showing is known: when the
    links are asked for, the view has a file and that file cannot be
    read, the one paragraph [Error processing content: <message>];
    in every other case the raw text of the view under the fixed
    heading.  The linked contents that were gathered do not appear, and
    the provider has no part in it. *)
Theorem onOpen_shows (net : Transport) (this : SummarizerModal) :
  onOpen net this
  = let raw := [Txt ("No API caller available. Raw content:

" ++ view_content (markdownView this))] in
    match (if summarizeWithLinks this then view_file (markdownView this) else None) with
    | Some f =>
        (trace (getLinkedContents (app this) (Some f)),
         match cachedRead (vault (app this)) f with
         | Ok _ => Ok raw
         | Throw e => Ok [El "p" ("Error processing content: " ++ message e)]
         end)
    | None => ([], Ok raw)
    end.
Proof.
  unfold onOpen. cbv zeta.
  destruct (summarizeWithLinks this); [|reflexivity].
  destruct (view_file (markdownView this)) as [f|]; [|reflexivity].
  destruct (cachedRead (vault (app this)) f) as [text|e] eqn:Hread.
  - rewrite (getLinkedContents_readable _ f text Hread).
    cbn [bind ret try_catch trace fst]. rewrite app_nil_r. reflexivity.
  - rewrite (getLinkedContents_unreadable _ f e Hread).
    cbn [bind ret try_catch trace fst]. reflexivity.
Qed.

(** ** The request block (lines 233-251) *)

Lemma chatCompletion_unknown (net : Transport) (this : ApiCaller) (msgs : list Message) :
  provider this <> "openai" ->
  provider this <> "anthropic" ->
  provider this <> "deepseek" ->
  chatCompletion net this msgs
  = ([], Throw (mkError ("Unsupported provider: " ++ provider this))).
Proof.
  intros Ho Ha Hd. unfold chatCompletion, createClient.
  destruct (String.eqb_spec (provider this) "openai"); [contradiction|].
  destruct (String.eqb_spec (provider this) "anthropic"); [contradiction|].
  destruct (String.eqb_spec (provider this) "deepseek"); [contradiction|].
  reflexivity.
Qed.

Lemma chatCompletion_cases (net : Transport) (this : ApiCaller) (msgs : list Message) :
  (exists baseUrl, known_provider (provider this) baseUrl) \/
  (provider this <> "openai" /\ provider this <> "anthropic" /\
   provider this <> "deepseek").
Proof.
  destruct (String.eqb_spec (provider this) "openai") as [Ho|Ho];
    [left; eexists; left; split; [exact Ho|reflexivity]|].
  destruct (String.eqb_spec (provider this) "anthropic") as [Ha|Ha];
    [left; eexists; right; left; split; [exact Ha|reflexivity]|].
  destruct (String.eqb_spec (provider this) "deepseek") as [Hd|Hd];
    [left; eexists; right; right; split; [exact Hd|reflexivity]|].
  right. auto.
Qed.

(** X9: the block absorbs every failure and asks the provider at most once:
    whatever the provider setting, the transport's answer and the shape
    of the response, it completes with something to show and its trace
    holds at most one request. *)
Theorem summary_block_never_throws (net : Transport) (this : SummarizerModal)
    (content additionalContent : string) :
  (exists nodes,
      outcome (summary_block net this content additionalContent) = Ok nodes) /\
  requests_issued (trace (summary_block net this content additionalContent)) <= 1.
Proof.
  unfold summary_block.
  destruct (chatCompletion_cases net (apiCaller this)
              (messages (summarizeWithLinks this) content additionalContent))
    as [[baseUrl Hk]|(Ho & Ha & Hd)].
  - rewrite (chatCompletion_known net _ _ baseUrl Hk). cbv zeta.
    destruct (net _) as [[[|c rest]]|e]; cbn; split; eauto.
  - rewrite (chatCompletion_unknown net _ _ Ho Ha Hd). cbn; split; eauto.
Qed.

(** X10: with an unsupported provider the block shows the error, naming the
    provider, above the raw text, and no request is made. *)
Theorem summary_block_unsupported (net : Transport) (this : SummarizerModal)
    (content additionalContent : string) :
  provider (apiCaller this) <> "openai" ->
  provider (apiCaller this) <> "anthropic" ->
  provider (apiCaller this) <> "deepseek" ->
  summary_block net this content additionalContent
  = ([], Ok [ El "p" ("Error getting summary: Unsupported provider: "
                      ++ provider (apiCaller this));
              El "pre" content ]).
Proof.
  intros Ho Ha Hd. unfold summary_block.
  rewrite (chatCompletion_unknown net _ _ Ho Ha Hd). reflexivity.
Qed.

Lemma summary_block_unsupported_witness :
  summary_block echo_net
    (mkModal (home_app [] all_texts) (newApiCaller foo_settings) None false)
    "note text" ""
  = ([], Ok [ El "p" "Error getting summary: Unsupported provider: foo";
              El "pre" "note text" ]).
Proof.
  apply (summary_block_unsupported echo_net
           (mkModal (home_app [] all_texts) (newApiCaller foo_settings) None false)
           "note text" "");
    vm_compute; discriminate.
Defined.

(** X11: when the transport fails, the block makes that one request and no
    other, and shows the transport's message above the raw text. *)
Theorem summary_block_transport_failure (net : Transport) (this : SummarizerModal)
    (content additionalContent baseUrl : string) (e : JsError) :
  known_provider (provider (apiCaller this)) baseUrl ->
  net (mkRequest baseUrl (apiKey (apiCaller this)) (llmModelId (apiCaller this))
                 (messages (summarizeWithLinks this) content additionalContent))
  = Throw e ->
  summary_block net this content additionalContent
  = ([EvChatCreate
        (mkRequest baseUrl (apiKey (apiCaller this)) (llmModelId (apiCaller this))
                   (messages (summarizeWithLinks this) content additionalContent))],
     Ok [ El "p" ("Error getting summary: " ++ message e); El "pre" content ]).
Proof.
  intros Hk Hnet. unfold summary_block.
  rewrite (chatCompletion_known net _ _ baseUrl Hk). cbv zeta.
  rewrite Hnet. reflexivity.
Qed.

Lemma summary_block_transport_failure_witness :
  summary_block down_net plain_modal "note text" ""
  = ([EvChatCreate (mkRequest "https://api.openai.com/v1" (Some "") "gpt-4o"
                              (messages false "note text" ""))],
     Ok [ El "p" "Error getting summary: 503 Service Unavailable";
          El "pre" "note text" ]).
Proof.
  apply (summary_block_transport_failure down_net plain_modal "note text" ""
           "https://api.openai.com/v1" (mkError "503 Service Unavailable")).
  - left. split; reflexivity.
  - reflexivity.
Defined.

(** X12: on a known provider that answers with at least one choice, the block
    makes one request, to the provider's endpoint, with the caller's key,
    the configured model and the two prompt messages, and shows the
    heading and the first choice's text (the fallback when that is null
    or empty); later choices are ignored. *)
Theorem summary_block_success (net : Transport) (this : SummarizerModal)
    (content additionalContent baseUrl : string) (c : Choice) (rest : list Choice) :
  known_provider (provider (apiCaller this)) baseUrl ->
  net (mkRequest baseUrl (apiKey (apiCaller this)) (llmModelId (apiCaller this))
                 (messages (summarizeWithLinks this) content additionalContent))
  = Ok (mkCompletion (c :: rest)) ->
  summary_block net this content additionalContent
  = ([EvChatCreate
        (mkRequest baseUrl (apiKey (apiCaller this)) (llmModelId (apiCaller this))
                   (messages (summarizeWithLinks this) content additionalContent))],
     Ok [ El "h3" (if summarizeWithLinks this
                   then "Summary (with linked content)" else "Summary");
          El "p" (or_default (choice_content c) "No summary available") ]).
Proof.
  intros Hk Hnet. exact (summary_block_known net this _ _ baseUrl c rest Hk Hnet).
Qed.

Lemma summary_block_success_witness :
  summary_block echo_net linked_modal "note text" "linked text"
  = ([EvChatCreate (mkRequest "https://api.openai.com/v1" (Some "") "gpt-4o"
                              (messages true "note text" "linked text"))],
     Ok [ El "h3" "Summary (with linked content)"; El "p" "gpt-4o" ]).
Proof.
  apply (summary_block_success echo_net linked_modal "note text" "linked text"
           "https://api.openai.com/v1" (mkChoice (Some "gpt-4o")) []).
  - left. split; reflexivity.
  - reflexivity.
Defined.

(** X13: a response without any choice is not given the fallback text: reading
    its first choice throws, and the block shows that error above the
    raw text, after its one request. *)
Theorem summary_block_no_choice (net : Transport) (this : SummarizerModal)
    (content additionalContent baseUrl : string) :
  known_provider (provider (apiCaller this)) baseUrl ->
  net (mkRequest baseUrl (apiKey (apiCaller this)) (llmModelId (apiCaller this))
                 (messages (summarizeWithLinks this) content additionalContent))
  = Ok (mkCompletion []) ->
  exists reason,
    summary_block net this content additionalContent
    = ([EvChatCreate
          (mkRequest baseUrl (apiKey (apiCaller this)) (llmModelId (apiCaller this))
                     (messages (summarizeWithLinks this) content additionalContent))],
       Ok [ El "p" ("Error getting summary: " ++ reason); El "pre" content ]).
Proof.
  intros Hk Hnet. unfold summary_block.
  rewrite (chatCompletion_known net _ _ baseUrl Hk). cbv zeta.
  rewrite Hnet. eexists. reflexivity.
Qed.

Lemma summary_block_no_choice_witness :
  exists reason,
    summary_block mute_net plain_modal "note text" ""
    = ([EvChatCreate (mkRequest "https://api.openai.com/v1" (Some "") "gpt-4o"
                                (messages false "note text" ""))],
       Ok [ El "p" ("Error getting summary: " ++ reason); El "pre" "note text" ]).
Proof.
  apply (summary_block_no_choice mute_net plain_modal "note text" ""
           "https://api.openai.com/v1").
  - left. split; reflexivity.
  - reflexivity.
Defined.

(** ** The completion client *)

(** X14: a client built from the settings sends the key of the selected
    provider to that provider's endpoint and to no other: the request is
    the one below, with the settings' model and the caller's messages
    as they are, and the transport's outcome is handed back unchanged
    (no retry, no wrapping).  Any other provider value throws before a
    request is made. *)
Theorem chatCompletion_from_settings (net : Transport)
    (settings : SummarizerPluginSettings) (msgs : list Message) :
  chatCompletion net (newApiCaller settings) msgs
  = let send baseUrl key :=
      let r := mkRequest baseUrl (Some key) (settings_llmModelId settings) msgs in
      ([EvChatCreate r], net r) in
    if String.eqb (llmProvider settings) "openai"
    then send "https://api.openai.com/v1" (openaiApiKey settings)
    else if String.eqb (llmProvider settings) "anthropic"
    then send "https://api.anthropic.com/v1" (anthropicApiKey settings)
    else if String.eqb (llmProvider settings) "deepseek"
    then send "https://api.deepseek.com/v1" (deepseekApiKey settings)
    else ([], Throw (mkError ("Unsupported provider: " ++ llmProvider settings))).
Proof.
  unfold chatCompletion, createClient, newApiCaller.
  cbn [provider apiKey llmModelId].
  destruct (String.eqb (llmProvider settings) "openai"); [reflexivity|].
  destruct (String.eqb (llmProvider settings) "anthropic"); [reflexivity|].
  destruct (String.eqb (llmProvider settings) "deepseek"); reflexivity.
Qed.

(** ** Settings *)

Lemma object_assign_defaults (d : option (gmap string string)) :
  Plugin.object_assign ∅ [Some Plugin.DEFAULT_OBJECT; d]
  = match d with
    | Some saved => saved ∪ Plugin.DEFAULT_OBJECT
    | None => Plugin.DEFAULT_OBJECT
    end.
Proof.
  cbn [Plugin.object_assign]. rewrite (right_id_L ∅ (∪)).
  destruct d; reflexivity.
Qed.

Lemma loadSettings_merge (this : Plugin.t) (k : string) :
  Plugin.settings (Plugin.loadSettings this) !! k
  = match Plugin.data this with
    | Some saved =>
        match saved !! k with
        | Some v => Some v
        | None => Plugin.DEFAULT_OBJECT !! k
        end
    | None => Plugin.DEFAULT_OBJECT !! k
    end.
Proof.
  unfold Plugin.loadSettings. cbn [Plugin.settings].
  rewrite object_assign_defaults.
  destruct (Plugin.data this) as [saved|]; [|reflexivity].
  rewrite lookup_union. destruct (saved !! k), (Plugin.DEFAULT_OBJECT !! k); reflexivity.
Qed.

(** X15: loading merges the data file over the defaults, property by
    property: a property the file has keeps the file's value (also one
    the defaults do not have), any other has its default; with no data
    file the settings are the defaults.  Loading changes neither the
    data file nor the [ApiCaller]. *)
Theorem loadSettings_lookup (this : Plugin.t) :
  (forall k,
      Plugin.settings (Plugin.loadSettings this) !! k
      = match Plugin.data this with
        | Some saved =>
            match saved !! k with
            | Some v => Some v
            | None => Plugin.DEFAULT_OBJECT !! k
            end
        | None => Plugin.DEFAULT_OBJECT !! k
        end) /\
  (Plugin.data this = None ->
   Plugin.settings (Plugin.loadSettings this) = Plugin.DEFAULT_OBJECT) /\
  Plugin.data (Plugin.loadSettings this) = Plugin.data this /\
  Plugin.apiCaller (Plugin.loadSettings this) = Plugin.apiCaller this.
Proof.
  split; [apply loadSettings_merge|]. split; [|split; reflexivity].
  intros Hnone. apply map_eq. intros k. rewrite loadSettings_merge, Hnone. reflexivity.
Qed.

Lemma loadSettings_complete (this : Plugin.t) :
  Plugin.complete (Plugin.settings (Plugin.loadSettings this)).
Proof.
  intros k Hk. rewrite loadSettings_merge.
  destruct (Plugin.data this) as [saved|]; [|exact Hk].
  destruct (saved !! k); [eauto|exact Hk].
Qed.

Lemma complete_record (o : gmap string string) :
  Plugin.complete o -> is_Some (Plugin.settings_record o).
Proof.
  intros Hc. unfold Plugin.settings_record.
  destruct (Hc "mySetting") as [v1 ->]; [eexists; reflexivity|].
  destruct (Hc "openaiApiKey") as [v2 ->]; [eexists; reflexivity|].
  destruct (Hc "anthropicApiKey") as [v3 ->]; [eexists; reflexivity|].
  destruct (Hc "deepseekApiKey") as [v4 ->]; [eexists; reflexivity|].
  destruct (Hc "llmProvider") as [v5 ->]; [eexists; reflexivity|].
  destruct (Hc "llmModelId") as [v6 ->]; [eexists; reflexivity|].
  eexists. reflexivity.
Qed.

Lemma complete_reload (o : gmap string string) :
  Plugin.complete o -> o ∪ Plugin.DEFAULT_OBJECT = o.
Proof.
  intros Hc. apply map_eq. intros k. rewrite lookup_union.
  destruct (o !! k) as [v|] eqn:Hk.
  - destruct (Plugin.DEFAULT_OBJECT !! k); reflexivity.
  - destruct (Plugin.DEFAULT_OBJECT !! k) as [d|] eqn:Hd; [|reflexivity].
    destruct (Hc k) as [v Hv]; [rewrite Hd; eauto|congruence].
Qed.

(** X16: whatever the data file holds, [onload] ends with every field of the
    settings interface defined and with an [ApiCaller] built from them;
    the provider and the model are the file's, or [openai] and [gpt-4o]
    when the file does not name them. *)
Theorem onload_builds_caller (this : Plugin.t) :
  exists s,
    Plugin.settings_record (Plugin.settings (Plugin.onload this)) = Some s /\
    Plugin.apiCaller (Plugin.onload this) = Some (newApiCaller s) /\
    llmProvider s = default "openai" (Plugin.data this ≫= (.!! "llmProvider")) /\
    settings_llmModelId s = default "gpt-4o" (Plugin.data this ≫= (.!! "llmModelId")).
Proof.
  destruct (complete_record _ (loadSettings_complete this)) as [s Hs].
  exists s. unfold Plugin.onload. cbn [Plugin.settings Plugin.apiCaller].
  rewrite Hs. split; [reflexivity|]. split; [reflexivity|].
  unfold Plugin.settings_record in Hs.
  pose proof (loadSettings_merge this "llmProvider") as Hp.
  pose proof (loadSettings_merge this "llmModelId") as Hm.
  destruct (Plugin.settings (Plugin.loadSettings this) !! "mySetting"); [|discriminate].
  destruct (Plugin.settings (Plugin.loadSettings this) !! "openaiApiKey"); [|discriminate].
  destruct (Plugin.settings (Plugin.loadSettings this) !! "anthropicApiKey");
    [|discriminate].
  destruct (Plugin.settings (Plugin.loadSettings this) !! "deepseekApiKey");
    [|discriminate].
  destruct (Plugin.settings (Plugin.loadSettings this) !! "llmProvider") as [p|];
    [|discriminate].
  destruct (Plugin.settings (Plugin.loadSettings this) !! "llmModelId") as [m|];
    [|discriminate].
  cbn in Hs. injection Hs as <-. cbn [llmProvider settings_llmModelId].
  destruct (Plugin.data this) as [saved|]; cbn.
  - split.
    + destruct (saved !! "llmProvider"); cbn; [congruence|].
      change (Plugin.DEFAULT_OBJECT !! "llmProvider") with (Some "openai") in Hp.
      congruence.
    + destruct (saved !! "llmModelId"); cbn; [congruence|].
      change (Plugin.DEFAULT_OBJECT !! "llmModelId") with (Some "gpt-4o") in Hm.
      congruence.
  - change (Plugin.DEFAULT_OBJECT !! "llmProvider") with (Some "openai") in Hp.
    change (Plugin.DEFAULT_OBJECT !! "llmModelId") with (Some "gpt-4o") in Hm.
    split; congruence.
Qed.

Lemma onChange_complete (fld : Plugin.TextField) (value : string) (this : Plugin.t) :
  Plugin.complete (Plugin.settings this) ->
  Plugin.complete (Plugin.settings (Plugin.onChange fld value this)).
Proof.
  intros Hc k Hk. cbn [Plugin.onChange Plugin.saveSettings Plugin.settings].
  rewrite lookup_insert. destruct (decide (Plugin.field_key fld = k)); [eauto|].
  apply Hc, Hk.
Qed.

Lemma reload_saved (this : Plugin.t) :
  Plugin.complete (Plugin.settings this) ->
  Plugin.data this = Some (Plugin.settings this) ->
  Plugin.settings (Plugin.loadSettings this) = Plugin.settings this.
Proof.
  intros Hc Hd. unfold Plugin.loadSettings. cbn [Plugin.settings].
  rewrite object_assign_defaults, Hd. apply complete_reload, Hc.
Qed.

Lemma edit_all_snoc (edits : list (Plugin.TextField * string))
    (e : Plugin.TextField * string) (this : Plugin.t) :
  Plugin.edit_all (edits ++ [e]) this
  = Plugin.onChange (fst e) (snd e) (Plugin.edit_all edits this).
Proof. unfold Plugin.edit_all. rewrite fold_left_app. reflexivity. Qed.

Lemma edit_all_invariant (edits : list (Plugin.TextField * string)) (this : Plugin.t) :
  let p := Plugin.edit_all edits (Plugin.onload this) in
  Plugin.complete (Plugin.settings p) /\
  Plugin.settings (Plugin.loadSettings p) = Plugin.settings p.
Proof.
  induction edits as [|e edits IH] using rev_ind; cbv zeta.
  - split; [apply loadSettings_complete|].
    unfold Plugin.edit_all, Plugin.onload, Plugin.loadSettings.
    cbn [fold_left Plugin.settings Plugin.data].
    rewrite !object_assign_defaults.
    destruct (Plugin.data this) as [saved|]; [|reflexivity].
    apply map_eq. intros k. rewrite !lookup_union.
    destruct (saved !! k), (Plugin.DEFAULT_OBJECT !! k); reflexivity.
  - rewrite edit_all_snoc. destruct IH as [Hc _].
    split; [apply onChange_complete, Hc|].
    apply reload_saved; [apply onChange_complete, Hc|reflexivity].
Qed.

(** X17: nothing typed in the settings tab is lost: after [onload] and any
    session of edits, loading the settings again gives exactly the
    settings in memory. *)
Theorem edits_survive_reload (edits : list (Plugin.TextField * string))
    (this : Plugin.t) :
  Plugin.settings (Plugin.loadSettings (Plugin.edit_all edits (Plugin.onload this)))
  = Plugin.settings (Plugin.edit_all edits (Plugin.onload this)).
Proof. exact (proj2 (edit_all_invariant edits this)). Qed.

Lemma edit_all_apiCaller (edits : list (Plugin.TextField * string)) (this : Plugin.t) :
  Plugin.apiCaller (Plugin.edit_all edits this) = Plugin.apiCaller this.
Proof.
  induction edits as [|e edits IH] using rev_ind; [reflexivity|].
  rewrite edit_all_snoc. exact IH.
Qed.

(** X18: edits in the settings tab do not reach the [ApiCaller]: it stays the
    one [onload] built, with the provider, key and model of that moment,
    however the settings are changed afterwards.  Only running [onload]
    again builds a caller from the edited settings. *)
Theorem edits_do_not_rebuild_caller (edits : list (Plugin.TextField * string))
    (this : Plugin.t) :
  Plugin.apiCaller (Plugin.edit_all edits (Plugin.onload this))
  = Plugin.apiCaller (Plugin.onload this) /\
  Plugin.apiCaller (Plugin.onload (Plugin.edit_all edits (Plugin.onload this)))
  = newApiCaller
      <$> Plugin.settings_record
            (Plugin.settings (Plugin.edit_all edits (Plugin.onload this))).
Proof.
  split; [apply edit_all_apiCaller|].
  unfold Plugin.onload at 1. cbn [Plugin.apiCaller Plugin.settings].
  rewrite (proj2 (edit_all_invariant edits this)). reflexivity.
Qed.

(** X19: an edit is saved at once and shows when the tab is drawn again: the
    edited row holds the new value, every other row the value it had,
    and the data file is the settings in memory. *)
Theorem onChange_display (fld : Plugin.TextField) (value : string) (this : Plugin.t) :
  Plugin.display (Plugin.onChange fld value this)
  = map (fun f => Plugin.field_row f
                    (if decide (f = fld) then Some value
                     else Plugin.settings this !! Plugin.field_key f))
        Plugin.text_fields /\
  Plugin.data (Plugin.onChange fld value this)
  = Some (Plugin.settings (Plugin.onChange fld value this)).
Proof.
  split; [|reflexivity].
  unfold Plugin.display, Plugin.text_fields.
  cbn [Plugin.onChange Plugin.saveSettings Plugin.settings map].
  rewrite !lookup_insert.
  destruct fld; reflexivity.
Qed.

(** ** Commands *)

(** X20: the two commands that summarize without links never touch the vault
    or the provider.  The plain callback always opens the modal, which
    shows the raw text of the active view, or no text when no view is
    active; the checked command opens it only when run (not when
    checked) with a view active. *)
Theorem plain_commands_show_raw_text (net : Transport) (app : App) (caller : ApiCaller)
    (active : option MarkdownView) (checking : bool) :
  Plugin.shown net (Plugin.open_summarizer_modal_simple app caller active)
  = Some ([], Ok [Txt ("No API caller available. Raw content:

" ++ view_content active)]) /\
  Plugin.shown net (Plugin.summarize_current_note_modal app caller active checking)
  = (if checking then None
     else (fun view => ([], Ok [Txt ("No API caller available. Raw content:

" ++ getViewData view)])) <$> active).
Proof.
  split; [reflexivity|].
  destruct active as [view|], checking; reflexivity.
Qed.

(** * The scraper *)

(** ** File names *)

(** X21: the file-name stem made from a link has the link's length and holds
    only letters, digits and underscores, so no separator and no dot;
    the letters and digits of the link stay where they were, a link of
    letters and digits only is its own stem, and making a stem of a
    stem changes nothing. *)
Theorem sanitize_spec (link : string) :
  String.length (Scraper.sanitize link) = String.length link /\
  Scraper.all_units (fun c => Scraper.is_alnum c || Ascii.eqb c "_")
                    (Scraper.sanitize link) = true /\
  Scraper.sanitize (Scraper.sanitize link) = Scraper.sanitize link /\
  (Scraper.all_units Scraper.is_alnum link = true -> Scraper.sanitize link = link) /\
  (forall n c, String.get n link = Some c -> Scraper.is_alnum c = true ->
               String.get n (Scraper.sanitize link) = Some c).
Proof.
  unfold Scraper.sanitize. repeat split.
  - induction link as [|c rest IH]; [reflexivity|]. cbn. rewrite IH. reflexivity.
  - induction link as [|c rest IH]; [reflexivity|]. cbn. rewrite IH.
    destruct (Scraper.is_alnum c) eqn:Hc; [rewrite Hc|]; reflexivity.
  - induction link as [|c rest IH]; [reflexivity|]. cbn. rewrite IH.
    destruct (Scraper.is_alnum c) eqn:Hc; [rewrite Hc|]; reflexivity.
  - induction link as [|c rest IH]; [reflexivity|]. cbn.
    intros [Hc Hrest]%andb_true_iff. rewrite Hc, (IH Hrest). reflexivity.
  - induction link as [|a rest IH]; intros n c; [destruct n; discriminate|].
    destruct n as [|n]; cbn.
    + intros [= ->] Hc. rewrite Hc. reflexivity.
    + apply IH.
Qed.

(** ** How the combinators treat the object and failure *)

Section ScraperLaws.

Import Scraper.
Local Open Scope scraper_scope.

Lemma keeps_ret {A} (a : A) : keeps (ret a).
Proof. intros h s. reflexivity. Qed.

Lemma keeps_call {A} (ev : Ev) (answer : list Ev -> Outcome A) : keeps (call ev answer).
Proof. intros h s. reflexivity. Qed.

Lemma keeps_on_page {A} (m : S A) : keeps m -> keeps (on_page m).
Proof. intros Hm h s. unfold on_page. destruct (page s); [apply Hm|reflexivity]. Qed.

Lemma keeps_bind {A B} (m : S A) (k : A -> S B) :
  keeps m -> (forall a, keeps (k a)) -> keeps (x <- m ;; k x).
Proof.
  intros Hm Hk h s. unfold bind. specialize (Hm h s).
  destruct (m h s) as [[h' s'] [a|e]]; cbn in Hm; subst s'; [apply Hk|reflexivity].
Qed.

Lemma keeps_try_catch {A} (m : S A) (handler : JsError -> S A) :
  keeps m -> (forall e, keeps (handler e)) -> keeps (try_catch m handler).
Proof.
  intros Hm Hh h s. unfold try_catch. specialize (Hm h s).
  destruct (m h s) as [[h' s'] [a|e]]; cbn in Hm; subst s'; [reflexivity|apply Hh].
Qed.

Lemma total_ret {A} (a : A) : total (ret a).
Proof. intros h s. exists a. reflexivity. Qed.

Lemma total_call {A} (ev : Ev) (answer : list Ev -> Outcome A) :
  (forall h, exists a, answer h = Ok a) -> total (call ev answer).
Proof. intros H h s. exact (H h). Qed.

Lemma total_bind {A B} (m : S A) (k : A -> S B) :
  total m -> (forall a, total (k a)) -> total (x <- m ;; k x).
Proof.
  intros Hm Hk h s. unfold bind. destruct (Hm h s) as [a Ha].
  destruct (m h s) as [[h' s'] o]; cbn in Ha; subst o. apply Hk.
Qed.

Lemma total_try_catch {A} (m : S A) (handler : JsError -> S A) :
  (forall e, total (handler e)) -> total (try_catch m handler).
Proof.
  intros Hh h s. unfold try_catch.
  destruct (m h s) as [[h' s'] [a|e]]; [exists a; reflexivity|apply Hh].
Qed.

Lemma total_try_finally {A} (m : S A) (f : S unit) :
  total m -> total f -> total (try_finally m f).
Proof.
  intros Hm Hf h s. unfold try_finally. destruct (Hm h s) as [a Ha].
  destruct (m h s) as [[h' s'] o]; cbn in Ha; subst o.
  destruct (Hf h' s') as [u Hu].
  destruct (f h' s') as [[h'' s''] o]; cbn in Hu; subst o. exists a. reflexivity.
Qed.

Variable host : Host.

Lemma dumpHtml_keeps (errorLocation : string) : keeps (dumpHtml host errorLocation).
Proof.
  unfold dumpHtml. apply keeps_try_catch; [|intros; apply keeps_ret].
  repeat (apply keeps_bind; [try apply keeps_on_page; apply keeps_call|intros]).
  apply keeps_call.
Qed.

Lemma dumpHtml_total (errorLocation : string) : total (dumpHtml host errorLocation).
Proof. unfold dumpHtml. apply total_try_catch. intros e. apply total_ret. Qed.

Lemma dumpHtml_run (errorLocation : string) (h : list Ev) (s : t) :
  dumpHtml host errorLocation h s
  = (history (dumpHtml host errorLocation h s), s, Ok tt).
Proof.
  pose proof (dumpHtml_keeps errorLocation h s) as Hk.
  destruct (dumpHtml_total errorLocation h s) as [[] Ht].
  destruct (dumpHtml host errorLocation h s) as [[h' s'] o].
  cbn in *. subst. reflexivity.
Qed.

Lemma extractTweetContent_keeps (link : string) : keeps (extractTweetContent host link).
Proof.
  unfold extractTweetContent.
  apply keeps_try_catch;
    [|intros; apply keeps_bind; [apply dumpHtml_keeps|intros; apply keeps_ret]].
  apply keeps_bind; [apply keeps_on_page, keeps_call|intros _].
  apply keeps_bind.
  - apply keeps_try_catch.
    + apply keeps_bind; [apply keeps_on_page, keeps_call|intros; apply keeps_ret].
    + intros e. apply keeps_bind; [apply dumpHtml_keeps|intros; apply keeps_ret].
  - intros [|]; [|apply keeps_ret].
    apply keeps_bind; [apply keeps_on_page, keeps_call|intros].
    apply keeps_bind; [apply keeps_on_page, keeps_call|intros; apply keeps_ret].
Qed.

Lemma extractTweetContent_total (link : string) : total (extractTweetContent host link).
Proof.
  unfold extractTweetContent. apply total_try_catch. intros e.
  apply total_bind; [apply dumpHtml_total|intros; apply total_ret].
Qed.

Lemma scrape_loop_keeps (links : list string) : keeps (scrape_loop host links).
Proof.
  induction links as [|link rest IH]; [apply keeps_ret|].
  cbn [scrape_loop]. apply keeps_bind; [apply extractTweetContent_keeps|].
  intros [[content tweetTexts]|]; (apply keeps_bind; [|intros; exact IH]).
  - apply keeps_bind; [apply keeps_call|intros; apply keeps_call].
  - apply keeps_ret.
Qed.

End ScraperLaws.

(** ** Extracting one page *)

(** X22: [extractTweetContent] never throws and leaves the scraper object as
    it was.  It returns the page's content and tweet texts exactly when
    the page handle is set and the four page steps succeed in turn
    (load, wait for the article, read the content, read the tweets); in
    every other case it returns null. *)
Theorem extractTweetContent_spec (host : Scraper.Host) (link : string)
    (h : list Scraper.Ev) (s : Scraper.t) :
  (exists r, Scraper.result (Scraper.extractTweetContent host link h s) = Ok r) /\
  Scraper.object (Scraper.extractTweetContent host link h s) = s /\
  forall content tweetTexts,
    Scraper.result (Scraper.extractTweetContent host link h s)
    = Ok (Some (content, tweetTexts)) <->
    Scraper.page s = true /\
    Scraper.goto host h link = Ok tt /\
    Scraper.waitForSelector host (h ++ [Scraper.Goto link]) = Ok tt /\
    Scraper.page_content host
      (h ++ [Scraper.Goto link; Scraper.WaitForSelector "article" 10000%N])
    = Ok content /\
    Scraper.tweet_texts host
      (h ++ [Scraper.Goto link; Scraper.WaitForSelector "article" 10000%N;
             Scraper.Content])
    = Ok tweetTexts.
Proof.
  split; [apply extractTweetContent_total|].
  split; [apply extractTweetContent_keeps|].
  intros content tweetTexts.
  replace (h ++ [Scraper.Goto link; Scraper.WaitForSelector "article" 10000%N])
    with ((h ++ [Scraper.Goto link]) ++ [Scraper.WaitForSelector "article" 10000%N])
    by (rewrite <- app_assoc; reflexivity).
  replace (h ++ [Scraper.Goto link; Scraper.WaitForSelector "article" 10000%N;
                 Scraper.Content])
    with (((h ++ [Scraper.Goto link]) ++ [Scraper.WaitForSelector "article" 10000%N])
            ++ [Scraper.Content])
    by (rewrite <- !app_assoc; reflexivity).
  unfold Scraper.extractTweetContent, Scraper.try_catch, Scraper.bind,
    Scraper.on_page, Scraper.call, Scraper.ret.
  destruct (Scraper.page s) eqn:Hpage.
  2: { rewrite dumpHtml_run. cbn. split; [discriminate|]. intros [? _]. discriminate. }
  destruct (Scraper.goto host h link) as [[]|e1].
  2: { rewrite dumpHtml_run. cbn. split; [discriminate|].
       intros (_ & ? & _). discriminate. }
  rewrite Hpage.
  destruct (Scraper.waitForSelector host (h ++ [Scraper.Goto link])) as [[]|e2].
  2: { rewrite dumpHtml_run. cbn. split; [discriminate|].
       intros (_ & _ & ? & _). discriminate. }
  rewrite Hpage.
  destruct (Scraper.page_content host _) as [c|e3].
  2: { rewrite dumpHtml_run. cbn. split; [discriminate|].
       intros (_ & _ & _ & ? & _). discriminate. }
  rewrite Hpage.
  destruct (Scraper.tweet_texts host _) as [tw|e4].
  2: { rewrite dumpHtml_run. cbn. split; [discriminate|].
       intros (_ & _ & _ & _ & ?). discriminate. }
  cbn. split.
  - intros [= -> ->]. auto.
  - intros (_ & _ & _ & [= ->] & [= ->]). reflexivity.
Qed.

(** ** A whole run *)

Lemma initialize_sets_browser (host : Scraper.Host) (h : list Scraper.Ev) (s : Scraper.t) :
  Scraper.launch host h = Ok tt ->
  Scraper.browser (Scraper.object (Scraper.initialize host h s)) = true.
Proof.
  intros Hl. unfold Scraper.initialize, Scraper.bind, Scraper.call,
    Scraper.set_browser, Scraper.set_context, Scraper.set_page.
  rewrite Hl.
  destruct (Scraper.newContext host _) as [[]|e]; [|reflexivity].
  destruct (Scraper.newPage host _) as [[]|e]; reflexivity.
Qed.

Lemma body_object (host : Scraper.Host) (links : list string)
    (h : list Scraper.Ev) (s : Scraper.t) :
  Scraper.object
    (Scraper.bind (Scraper.initialize host) (fun _ => Scraper.scrape_loop host links) h s)
  = Scraper.object (Scraper.initialize host h s).
Proof.
  unfold Scraper.bind.
  destruct (Scraper.initialize host h s) as [[h' s'] [[]|e]]; [|reflexivity].
  apply scrape_loop_keeps.
Qed.

(** X24: once the browser is launched, [scrapeLinks] closes it as the last
    thing it does, whatever failed in between: setting up the page,
    loading a link, writing a file. *)
Theorem scrapeLinks_closes_browser (host : Scraper.Host) (links : list string)
    (h : list Scraper.Ev) (s : Scraper.t) :
  Scraper.launch host h = Ok tt ->
  exists before,
    Scraper.history (Scraper.scrapeLinks host links h s) = before ++ [Scraper.Close].
Proof.
  intros Hl. unfold Scraper.scrapeLinks, Scraper.try_finally.
  assert (Hobj : Scraper.browser
                   (Scraper.object
                      (Scraper.bind (Scraper.initialize host)
                                    (fun _ => Scraper.scrape_loop host links) h s))
                 = true)
    by (rewrite body_object; apply initialize_sets_browser, Hl).
  destruct (Scraper.bind _ _ h s) as [[h' s'] o]. cbn in Hobj.
  unfold Scraper.close. rewrite Hobj. unfold Scraper.call.
  exists h'. destruct (Scraper.browser_close host h') as [[]|e]; reflexivity.
Qed.

Lemma scrapeLinks_closes_browser_witness :
  exists before,
    Scraper.history
      (Scraper.scrapeLinks Scraper.offline_host Scraper.twitterLinks []
                           (Scraper.new None None))
    = before ++ [Scraper.Close].
Proof.
  apply (scrapeLinks_closes_browser Scraper.offline_host Scraper.twitterLinks []
                                    (Scraper.new None None)).
  reflexivity.
Defined.

(** X25: when the browser cannot be launched, a fresh scraper does nothing
    else: no page is loaded, no file written, nothing closed, and the
    launch error is the outcome of [scrapeLinks]. *)
Theorem scrapeLinks_launch_failure (host : Scraper.Host) (links : list string)
    (h : list Scraper.Ev) (s : Scraper.t) (e : JsError) :
  Scraper.browser s = false ->
  Scraper.launch host h = Throw e ->
  Scraper.scrapeLinks host links h s = (h ++ [Scraper.Launch], s, Throw e).
Proof.
  intros Hb Hl. unfold Scraper.scrapeLinks, Scraper.try_finally, Scraper.initialize,
    Scraper.bind, Scraper.call, Scraper.close.
  rewrite Hl, Hb. reflexivity.
Qed.

Lemma scrapeLinks_launch_failure_witness :
  Scraper.scrapeLinks Scraper.no_browser_host Scraper.twitterLinks []
                      (Scraper.new (Some "user") (Some "secret"))
  = ([Scraper.Launch], Scraper.new (Some "user") (Some "secret"),
     Throw (mkError "Executable doesn't exist")).
Proof.
  apply (scrapeLinks_launch_failure Scraper.no_browser_host Scraper.twitterLinks []
           (Scraper.new (Some "user") (Some "secret"))
           (mkError "Executable doesn't exist")); reflexivity.
Defined.

Section Isolation.

Import Scraper.

Variable host : Host.
Hypothesis launch_ok : forall h, launch host h = Ok tt.
Hypothesis newContext_ok : forall h, newContext host h = Ok tt.
Hypothesis newPage_ok : forall h, newPage host h = Ok tt.
Hypothesis close_ok : forall h, browser_close host h = Ok tt.
Hypothesis writeFile_ok : forall h name text, writeFile host h name text = Ok tt.

Lemma initialize_total : total (initialize host).
Proof.
  unfold initialize.
  apply total_bind; [apply total_call; eauto|intros _].
  apply total_bind; [intros h s; eexists; reflexivity|intros _].
  apply total_bind; [apply total_call; eauto|intros _].
  apply total_bind; [intros h s; eexists; reflexivity|intros _].
  apply total_bind; [apply total_call; eauto|intros _].
  intros h s; eexists; reflexivity.
Qed.

Lemma scrape_loop_total (links : list string) : total (scrape_loop host links).
Proof.
  induction links as [|link rest IH]; [apply total_ret|].
  cbn [scrape_loop]. apply total_bind; [apply extractTweetContent_total|].
  intros [[content tweetTexts]|]; (apply total_bind; [|intros; exact IH]).
  - apply total_bind; [apply total_call; eauto|intros; apply total_call; eauto].
  - apply total_ret.
Qed.

Lemma close_total : total (close host).
Proof.
  intros h s. unfold close. destruct (browser s).
  - unfold call. cbn. rewrite close_ok. eauto.
  - eexists. reflexivity.
Qed.

Lemma scrapeLinks_total (links : list string) : total (scrapeLinks host links).
Proof.
  unfold scrapeLinks. apply total_try_finally; [|apply close_total].
  apply total_bind; [apply initialize_total|intros; apply scrape_loop_total].
Qed.

End Isolation.

(** X26: page failures are isolated: on a host where the browser can be set
    up and closed and files can be written, [scrapeLinks] succeeds for
    every list of links, however many of them fail to load, time out,
    or cannot be read. *)
Theorem scrapeLinks_isolates_page_failures (host : Scraper.Host) (links : list string)
    (h : list Scraper.Ev) (s : Scraper.t) :
  (forall h, Scraper.launch host h = Ok tt) ->
  (forall h, Scraper.newContext host h = Ok tt) ->
  (forall h, Scraper.newPage host h = Ok tt) ->
  (forall h, Scraper.browser_close host h = Ok tt) ->
  (forall h name text, Scraper.writeFile host h name text = Ok tt) ->
  Scraper.result (Scraper.scrapeLinks host links h s) = Ok tt.
Proof.
  intros Hl Hc Hp Hx Hw.
  destruct (scrapeLinks_total host Hl Hc Hp Hx Hw links h s) as [[] H]. exact H.
Qed.

Lemma scrapeLinks_isolates_page_failures_witness :
  Scraper.goto Scraper.offline_host []
               "https://x.com/Hesamation/status/1897667411345580398"
  = Throw (mkError "net::ERR_INTERNET_DISCONNECTED") /\
  Scraper.result
    (Scraper.scrapeLinks Scraper.offline_host Scraper.twitterLinks []
                         (Scraper.new None None))
  = Ok tt.
Proof.
  split; [reflexivity|].
  apply (scrapeLinks_isolates_page_failures Scraper.offline_host Scraper.twitterLinks []
           (Scraper.new None None)); reflexivity.
Defined.

Lemma files_written_app (h1 h2 : list Scraper.Ev) :
  Scraper.files_written (h1 ++ h2)
  = Scraper.files_written h1 ++ Scraper.files_written h2.
Proof. apply flat_map_app. Qed.

Section CalmHost.

Import Scraper.

Variable host : Host.
Hypothesis launch_ok : forall h, launch host h = Ok tt.
Hypothesis newContext_ok : forall h, newContext host h = Ok tt.
Hypothesis newPage_ok : forall h, newPage host h = Ok tt.
Hypothesis goto_ok : forall h url, goto host h url = Ok tt.
Hypothesis wait_ok : forall h, waitForSelector host h = Ok tt.
Hypothesis content_ok : forall h, exists html, page_content host h = Ok html.
Hypothesis tweets_ok : forall h, exists texts, tweet_texts host h = Ok texts.
Hypothesis writeFile_ok : forall h name text, writeFile host h name text = Ok tt.

Lemma extract_calm (link : string) (h : list Ev) (s : t) :
  page s = true ->
  exists content tweetTexts tail,
    extractTweetContent host link h s = (h ++ tail, s, Ok (Some (content, tweetTexts))) /\
    files_written tail = [].
Proof.
  intros Hpage.
  unfold extractTweetContent, try_catch, bind, on_page, call, ret.
  rewrite Hpage, goto_ok. cbv beta iota. rewrite Hpage, wait_ok. cbv beta iota.
  rewrite Hpage.
  destruct (content_ok ((h ++ [Goto link]) ++ [WaitForSelector "article" 10000%N]))
    as [html ->]. cbv beta iota. rewrite Hpage.
  destruct (tweets_ok (((h ++ [Goto link]) ++ [WaitForSelector "article" 10000%N])
                         ++ [Content])) as [texts ->].
  exists html, texts, [Goto link; WaitForSelector "article" 10000%N; Content; Evaluate].
  split; [|reflexivity]. rewrite <- !app_assoc. reflexivity.
Qed.

Lemma scrape_loop_calm (links : list string) (h : list Ev) (s : t) :
  page s = true ->
  files_written (history (scrape_loop host links h s))
  = files_written h ++ flat_map result_files links.
Proof.
  intros Hpage. revert h. induction links as [|link rest IH]; intros h.
  - cbn. rewrite app_nil_r. reflexivity.
  - cbn [scrape_loop]. unfold bind at 1.
    destruct (extract_calm link h s Hpage) as (content & texts & tail & -> & Htail).
    unfold bind, call. rewrite !writeFile_ok.
    rewrite IH, !files_written_app, Htail. cbn [flat_map result_files].
    rewrite app_nil_r, <- !app_assoc. reflexivity.
Qed.

Lemma scrapeLinks_calm (links : list string) (h : list Ev) (s : t) :
  files_written (history (scrapeLinks host links h s))
  = files_written h ++ flat_map result_files links.
Proof.
  unfold scrapeLinks, try_finally, initialize, bind at 1 2 3 4 5 6, call,
    set_browser, set_context, set_page.
  rewrite launch_ok, newContext_ok, newPage_ok.
  pose proof (scrape_loop_calm links
                (((h ++ [Launch]) ++ [NewContext]) ++ [NewPage])
                (mk (username s) (password s) true true true) eq_refl) as Hloop.
  pose proof (scrape_loop_keeps host links
                (((h ++ [Launch]) ++ [NewContext]) ++ [NewPage])
                (mk (username s) (password s) true true true)) as Hkeep.
  assert (Hinit : files_written (((h ++ [Launch]) ++ [NewContext]) ++ [NewPage])
                  = files_written h).
  { unfold files_written. rewrite !flat_map_app. cbn [flat_map Datatypes.app].
    rewrite !app_nil_r. reflexivity. }
  destruct (scrape_loop host links _ _) as [[h' s'] o].
  cbn [history object fst snd] in Hloop, Hkeep. subst s'.
  unfold close, call. cbn [browser].
  destruct (browser_close host h') as [[]|e]; cbn [history fst];
    rewrite files_written_app, Hloop, Hinit;
    change (files_written [Close]) with (@nil string);
    rewrite app_nil_r; reflexivity.
Qed.

End CalmHost.

(** X27: on a host where no page step and no write fails, [scrapeLinks]
    writes exactly two files per link, in the order of the links: the
    page as [<stem>.html] and then the tweets as [<stem>_tweets.txt],
    the stem being the link with every character that is not a letter
    or a digit replaced by an underscore.  Links with the same stem
    write the same two files again. *)
Theorem scrapeLinks_files (host : Scraper.Host) (links : list string)
    (h : list Scraper.Ev) (s : Scraper.t) :
  (forall h, Scraper.launch host h = Ok tt) ->
  (forall h, Scraper.newContext host h = Ok tt) ->
  (forall h, Scraper.newPage host h = Ok tt) ->
  (forall h url, Scraper.goto host h url = Ok tt) ->
  (forall h, Scraper.waitForSelector host h = Ok tt) ->
  (forall h, exists html, Scraper.page_content host h = Ok html) ->
  (forall h, exists texts, Scraper.tweet_texts host h = Ok texts) ->
  (forall h name text, Scraper.writeFile host h name text = Ok tt) ->
  Scraper.files_written (Scraper.history (Scraper.scrapeLinks host links h s))
  = Scraper.files_written h ++ flat_map Scraper.result_files links.
Proof.
  intros. apply scrapeLinks_calm; assumption.
Qed.

Lemma scrapeLinks_files_witness :
  Scraper.files_written
    (Scraper.history
       (Scraper.scrapeLinks Scraper.calm_host Scraper.twitterLinks []
                            (Scraper.new None None)))
  = [ "https___x_com_Hesamation_status_1897667411345580398.html";
      "https___x_com_Hesamation_status_1897667411345580398_tweets.txt";
      "https___x_com_kimmonismus_status_1897701427532755340.html";
      "https___x_com_kimmonismus_status_1897701427532755340_tweets.txt" ].
Proof.
  refine (eq_trans
            (scrapeLinks_files Scraper.calm_host Scraper.twitterLinks []
               (Scraper.new None None) _ _ _ _ _ _ _ _) _);
    try reflexivity; try (intros; eexists; reflexivity).
Defined.

(** ** The dump made on a failure *)

Lemma append_assoc (a b c : string) : ((a ++ b) ++ c = a ++ (b ++ c))%string.
Proof.
  induction a as [|x a IH]; [reflexivity|].
  change (String x ((a ++ b) ++ c) = String x (a ++ (b ++ c))). rewrite IH. reflexivity.
Qed.

Lemma prefix_append (a c : string) : String.prefix a (a ++ c) = true.
Proof.
  induction a as [|x a IH]; [destruct c; reflexivity|].
  change (String.prefix (String x a) (String x (a ++ c)) = true).
  cbn [String.prefix].
  destruct (ascii_dec x x) as [_|Hne]; [exact IH|contradiction].
Qed.

Lemma error_prefix (errorLocation rest : string) :
  String.prefix ("error_" ++ errorLocation ++ "_")
                ("error_" ++ errorLocation ++ "_" ++ rest) = true.
Proof.
  rewrite <- (append_assoc errorLocation "_" rest).
  rewrite <- (append_assoc "error_" (errorLocation ++ "_") rest).
  apply prefix_append.
Qed.

Ltac dump_done :=
  cbn [Scraper.history fst]; rewrite ?files_written_app; cbn;
  split; [rewrite ?app_nil_r, <- ?app_assoc; reflexivity|];
  split; [lia|];
  repeat (constructor; [apply error_prefix|]); constructor.

(** X23: [dumpHtml] never throws and leaves the scraper object as it was,
    whatever fails while it runs; it writes at most two files, and only
    files named [error_<location>_...]. *)
Theorem dumpHtml_spec (host : Scraper.Host) (errorLocation : string)
    (h : list Scraper.Ev) (s : Scraper.t) :
  Scraper.result (Scraper.dumpHtml host errorLocation h s) = Ok tt /\
  Scraper.object (Scraper.dumpHtml host errorLocation h s) = s /\
  exists written,
    Scraper.files_written (Scraper.history (Scraper.dumpHtml host errorLocation h s))
    = Scraper.files_written h ++ written /\
    length written <= 2 /\
    Forall (fun name => String.prefix ("error_" ++ errorLocation ++ "_") name = true)
           written.
Proof.
  split; [rewrite dumpHtml_run; reflexivity|].
  split; [apply dumpHtml_keeps|].
  unfold Scraper.dumpHtml, Scraper.try_catch, Scraper.bind, Scraper.on_page,
    Scraper.call, Scraper.ret.
  destruct (Scraper.page s) eqn:Hpage; [|exists []; dump_done].
  destruct (Scraper.page_content host h) as [html|e1]; [|exists []; dump_done].
  cbv beta iota zeta.
  destruct (Scraper.writeFile host _ _ html) as [[]|e2]; [|eexists [_]; dump_done].
  rewrite Hpage.
  destruct (Scraper.tweet_texts host _) as [texts|e3]; [|eexists [_]; dump_done].
  eexists [_; _].
  destruct (Scraper.writeFile host _ _ _) as [[]|e4]; dump_done.
Qed.
